(** * halkit.csv_handler: stitching carsharing booking logs

    A shallow embedding of [src/halkit/csv_handler.py] and the properties of
    its overlap check, gap check, loader and merger.

    Data frames are lists of typed rows, timestamps are integers (nanoseconds
    since the epoch, as pandas stores them) with [None] for pandas' missing
    value [NaT], exceptions are an explicit outcome type and the warnings
    written by [logging.warning] are collected in a log. *)

From Stdlib Require Import ZArith List Permutation.
From stdpp Require Import base option list sorting gmap strings pretty.

Local Open Scope string_scope.
Local Open Scope list_scope.
Local Open Scope nat_scope.

(** ** Exceptions and the two effect layers *)

Inductive exn : Type :=
| AssertionError (msg : string)
| ValueError (msg : string)
| IndexError (msg : string)
| PyError (name msg : string).

Inductive outcome (A : Type) : Type :=
| Ok (a : A)
| Raise (e : exn).
Arguments Ok {A} a.
Arguments Raise {A} e.

#[global] Instance outcome_ret : MRet outcome := @Ok.
#[global] Instance outcome_bind : MBind outcome := λ A B f m,
  match m with
  | Ok a => f a
  | Raise e => Raise e
  end.

(** Timestamps. [pd.Timestamp] is a count of nanoseconds; [NaT] compares
    false with everything, itself included. *)
Definition Timestamp : Type := option Z.
Definition NaT : Timestamp := None.
Definition Timedelta : Type := option Z.

Definition ts_le (a b : Timestamp) : bool :=
  match a, b with
  | Some x, Some y => (x <=? y)%Z
  | _, _ => false
  end.

Definition ts_lt (a b : Timestamp) : bool :=
  match a, b with
  | Some x, Some y => (x <? y)%Z
  | _, _ => false
  end.

Definition ts_ge (a b : Timestamp) : bool := ts_le b a.
Definition ts_gt (a b : Timestamp) : bool := ts_lt b a.

(** pandas keeps nanoseconds in a [numpy.int64], whose least value stands
    for [NaT]. *)
Definition int64_max : Z := 9223372036854775807.
Definition int64_min : Z := -9223372036854775808.

Definition out_of_bounds_datetime : exn :=
  PyError "OutOfBoundsDatetime"
    "Result is too large for pandas.Timedelta. Convert inputs to datetime.datetime with 'Timestamp.to_pydatetime()' before subtracting.".

(** [first - last] on timestamps: a [pd.Timedelta], [NaT] when either side
    is, and an exception when the difference does not fit 64 bits. *)
Definition ts_sub (a b : Timestamp) : outcome Timedelta :=
  match a, b with
  | Some x, Some y =>
      let d := (x - y)%Z in
      if (d <? int64_min)%Z || (int64_max <? d)%Z
      then Raise out_of_bounds_datetime
      else if (d =? int64_min)%Z then Ok None else Ok (Some d)
  | _, _ => Ok None
  end.

(** A whole number of hours, in nanoseconds. *)
Definition hours_ns (h : Z) : Z := (h * 3600000000000)%Z.

(** [datetime.timedelta] holds at most 999999999 days either way. *)
Definition timedelta_max_hours : Z := 23999999999.
Definition timedelta_min_hours : Z := -23999999976.

Definition timedelta_overflow (h : Z) : exn :=
  let days := (h / 24)%Z in
  PyError "OverflowError"
    (if (-2147483648 <=? days)%Z && (days <=? 2147483647)%Z
     then "days=" +:+ pretty days +:+ "; must have magnitude <= 999999999"
     else "Python int too large to convert to C int").

(** [datetime.timedelta(hours=h)], in nanoseconds. *)
Definition timedelta_hours (h : Z) : outcome Z :=
  if (timedelta_min_hours <=? h)%Z && (h <=? timedelta_max_hours)%Z
  then Ok (hours_ns h)
  else Raise (timedelta_overflow h).

(** [time_diff <= timedelta(...)]; false when [time_diff] is [NaT]. *)
Definition td_le (d : Timedelta) (limit : Z) : bool :=
  match d with
  | Some x => (x <=? limit)%Z
  | None => false
  end.

Definition ts_max2 (a b : Timestamp) : Timestamp :=
  match a, b with
  | Some x, Some y => Some (Z.max x y)
  | Some x, None => Some x
  | None, _ => b
  end.

Definition ts_min2 (a b : Timestamp) : Timestamp :=
  match a, b with
  | Some x, Some y => Some (Z.min x y)
  | Some x, None => Some x
  | None, _ => b
  end.

(** [Series.max()] and [Series.min()]: missing values are skipped, and the
    result is [NaT] when nothing is left. *)
Definition series_max (s : list Timestamp) : Timestamp := foldr ts_max2 NaT s.
Definition series_min (s : list Timestamp) : Timestamp := foldr ts_min2 NaT s.

(** ** Rows and data frames

    A row keeps the five columns the code reads; the other columns of an
    export travel with their row and are never looked at. *)

Record Row : Type := mkRow {
  anfang : Timestamp;
  ende : Timestamp;
  fahrt_anfang : Timestamp;
  fahrt_ende : Timestamp;
  fahrtneu_id : Z
}.

#[global] Instance Row_eq_dec : EqDecision Row.
Proof. solve_decision. Defined.

Definition DataFrame : Type := list Row.

(** [df["anfang"]] and [df["fahrtneu_id"]]. *)
Definition col_anfang (df : DataFrame) : list Timestamp := map anfang df.
Definition col_fahrtneu_id (df : DataFrame) : list Z := map fahrtneu_id df.

(** [df[df["anfang"] > t]] and its two siblings: boolean-mask selection. *)
Definition select_gt (df : DataFrame) (t : Timestamp) : DataFrame :=
  List.filter (λ r, ts_gt (anfang r) t) df.
Definition select_ge (df : DataFrame) (t : Timestamp) : DataFrame :=
  List.filter (λ r, ts_ge (anfang r) t) df.
Definition select_le (df : DataFrame) (t : Timestamp) : DataFrame :=
  List.filter (λ r, ts_le (anfang r) t) df.

(** The Python values a caller can hand to the merger. *)
#[warnings="-register-all"]
Inductive pyobj : Type :=
| PyDataFrame (df : DataFrame)
| PyList (items : list pyobj)
| PyNone
| PyInt (n : Z)
| PyStr (s : string).

Definition isinstance_list (o : pyobj) : bool :=
  match o with PyList _ => true | _ => false end.

Definition isinstance_DataFrame (o : pyobj) : bool :=
  match o with PyDataFrame _ => true | _ => false end.

(** ** Control structures *)

(** [xs[i]] on a Python list. *)
Definition getitem {A} (xs : list A) (i : nat) : outcome A :=
  match xs !! i with
  | Some x => Ok x
  | None => Raise (IndexError "list index out of range")
  end.

(** [for i in idx: s = body(i, s)], stopping at the first exception. *)
Fixpoint for_in {St} (idx : list nat) (body : nat → St → outcome St)
    (s : St) : outcome St :=
  match idx with
  | [] => Ok s
  | i :: idx' =>
      match body i s with
      | Ok s' => for_in idx' body s'
      | Raise e => Raise e
      end
  end.

(** [range(lo, hi)]. *)
Definition range (lo hi : nat) : list nat := seq lo (hi - lo).

(** [assert cond, msg]. *)
Definition assert_ (cond : bool) (msg : string) : outcome unit :=
  if cond then Ok tt else Raise (AssertionError msg).

(** ** merge_nonoverlapping_dfs *)

Definition merge_value_error : exn :=
  ValueError "'df_list_sorted' should be a list of pandas DataFrame objects".

(** The elements of a list that has passed the [isinstance] guard, as data
    frames. *)
Definition as_DataFrame (o : pyobj) : option DataFrame :=
  match o with PyDataFrame df => Some df | _ => None end.

Definition merge_step (df_list_sorted : list DataFrame) (i : nat)
    (master_df : DataFrame) : outcome DataFrame :=
  let last_date_master_df := series_max (col_anfang master_df) in
  cur ← getitem df_list_sorted i;
  let new_data := select_gt cur last_date_master_df in
  Ok (master_df ++ new_data).

Definition merge_loop (df_list_sorted : list DataFrame) : outcome DataFrame :=
  master_df ← getitem df_list_sorted 0;
  for_in (range 1 (length df_list_sorted)) (merge_step df_list_sorted)
    master_df.

(** Iterating over the argument, once it is known to be a list. *)
Definition list_items (o : pyobj) : list pyobj :=
  match o with PyList items => items | _ => [] end.

Definition merge_nonoverlapping_dfs (df_list_sorted : pyobj)
  : outcome DataFrame :=
  if negb (isinstance_list df_list_sorted)
     || negb (forallb isinstance_DataFrame (list_items df_list_sorted))
  then Raise merge_value_error
  else merge_loop (omap as_DataFrame (list_items df_list_sorted)).

(** ** verify_overlapping_bookings *)

(** The two f-strings of the overlap check; they interpolate the loop index
    [i] and [i+1]. *)
Definition assert_msg_len (i : nat) : string :=
  "The overlapping bookings have different lengths between files "
  +:+ pretty i +:+ " and " +:+ pretty (i + 1).

Definition assert_msg_id (i : nat) : string :=
  "The overlapping bookings do not align between files "
  +:+ pretty i +:+ " and " +:+ pretty (i + 1).

Arguments assert_msg_len : simpl never.
Arguments assert_msg_id : simpl never.

(** [set(series)] over the identifiers. *)
Definition py_set (ids : list Z) : gset Z := list_to_set ids.

Definition verify_step (df_list_sorted : list DataFrame) (i : nat) (_ : unit)
  : outcome unit :=
  cur ← getitem df_list_sorted i;
  nxt ← getitem df_list_sorted (i + 1);
  let last_date_current_df := series_max (col_anfang cur) in
  let first_date_next_df := series_min (col_anfang nxt) in
  if ts_ge last_date_current_df first_date_next_df then
    let overlap_current_df := select_ge cur first_date_next_df in
    let overlap_next_df := select_le nxt last_date_current_df in
    _ ← assert_ (length overlap_current_df =? length overlap_next_df)
          (assert_msg_len i);
    let overlap_current_id := col_fahrtneu_id overlap_current_df in
    let overlap_next_id := col_fahrtneu_id overlap_next_df in
    assert_ (bool_decide (py_set overlap_current_id = py_set overlap_next_id))
      (assert_msg_id i)
  else Ok tt.

Definition verify_overlapping_bookings (df_list_sorted : list DataFrame)
  : outcome unit :=
  for_in (range 0 (length df_list_sorted - 1)) (verify_step df_list_sorted) tt.

(** ** assert_time_difference_in_bookings *)

(** What an f-string passed to [logging] interpolates: literal text, a file
    name, a timestamp. *)
Inductive frag : Type :=
| Lit (s : string)
| FStr (s : string)
| FTs (t : Timestamp).

Inductive LogRecord : Type :=
| WARNING (message : list frag).

(** Code that may log before it returns or raises: the outcome together
    with the records emitted, oldest first. *)
Record logged (A : Type) : Type := Logged {
  result : outcome A;
  records : list LogRecord
}.
Arguments Logged {A} result records.
Arguments result {A} _.
Arguments records {A} _.

#[global] Instance logged_ret : MRet logged := λ A a, Logged (Ok a) [].
#[global] Instance logged_bind : MBind logged := λ A B f m,
  match m with
  | Logged (Ok a) log =>
      match f a with
      | Logged r log' => Logged r (log ++ log')
      end
  | Logged (Raise e) log => Logged (Raise e) log
  end.

Definition lift {A} (o : outcome A) : logged A := Logged o [].

Definition logging_warning (message : list frag) : logged unit :=
  Logged (Ok tt) [WARNING message].

(** The same loop, for a body that logs. *)
Fixpoint for_in_logged {St} (idx : list nat) (body : nat → St → logged St)
    (s : St) : logged St :=
  match idx with
  | [] => mret s
  | i :: idx' => s' ← body i s; for_in_logged idx' body s'
  end.

Definition nl : string := String (Ascii.ascii_of_nat 10) EmptyString.

(** [pd.to_datetime] on a value that already is a timestamp. *)
Definition to_datetime_ts (t : Timestamp) : Timestamp := t.

Definition gap_assert_msg (threshold_hours : Z) (f_cur f_next : string)
  : string :=
  "No overlap and time difference greater than " +:+ pretty threshold_hours
  +:+ " hours between " +:+ f_cur +:+ " and " +:+ f_next.

Arguments gap_assert_msg : simpl never.

Definition gap_warning_msg (f_cur f_next : string) (last first : Timestamp)
  : list frag :=
  [Lit "No overlap between "; FStr f_cur; Lit " and "; FStr f_next;
   Lit ("." +:+ nl +:+ "Last date: "); FTs last;
   Lit (nl +:+ "First date: "); FTs first].

Definition gap_step (df_list_sorted : list DataFrame)
    (csv_files_sorted : list string) (threshold_hours : Z) (i : nat)
    (_ : unit) : logged unit :=
  cur ← lift (getitem df_list_sorted i);
  let last_date_current_df := to_datetime_ts (series_max (col_anfang cur)) in
  nxt ← lift (getitem df_list_sorted (i + 1));
  let first_date_next_df := to_datetime_ts (series_min (col_anfang nxt)) in
  if negb (ts_ge last_date_current_df first_date_next_df) then
    time_diff ← lift (ts_sub first_date_next_df last_date_current_df);
    f_cur ← lift (getitem csv_files_sorted i);
    f_next ← lift (getitem csv_files_sorted (i + 1));
    let assert_msg := gap_assert_msg threshold_hours f_cur f_next in
    limit ← lift (timedelta_hours threshold_hours);
    _ ← lift (assert_ (td_le time_diff limit) assert_msg);
    logging_warning
      (gap_warning_msg f_cur f_next last_date_current_df first_date_next_df)
  else mret tt.

Definition assert_time_difference_in_bookings
    (df_list_sorted : list DataFrame) (csv_files_sorted : list string)
    (threshold_hours : Z) : logged unit :=
  for_in_logged (range 0 (length df_list_sorted - 1))
    (gap_step df_list_sorted csv_files_sorted threshold_hours) tt.

Definition default_threshold_hours : Z := 6.

(** ** load_and_sort_fahrten_data and the entry point *)

(** A frame as [pd.read_csv] returns it: the names of the columns the file
    has, and its rows with the four time columns still text. A cell of a
    column the file does not have is never read. *)
Record RawRow : Type := mkRawRow {
  raw_anfang : string;
  raw_ende : string;
  raw_fahrt_anfang : string;
  raw_fahrt_ende : string;
  raw_fahrtneu_id : Z
}.

Record RawFrame : Type := mkRawFrame {
  raw_header : list string;
  raw_rows : list RawRow
}.

(** [df[name]] on such a frame. *)
Definition raw_column (df : RawFrame) (name : string)
    (cell : RawRow → string) : outcome (list string) :=
  if bool_decide (name ∈ raw_header df)
  then Ok (map cell (raw_rows df))
  else Raise (PyError "KeyError" ("'" +:+ name +:+ "'")).

(** [sorted] on file names: ascending in the order of [str]. *)
Definition str_le (a b : string) : Prop := String.leb a b = true.

#[global] Instance str_le_dec : RelDecision str_le.
Proof. intros a b. unfold str_le. apply _. Defined.

Definition sorted (names : list string) : list string :=
  merge_sort str_le names.

Fixpoint assemble (ids : list Z) (a e fa fe : list Timestamp) : DataFrame :=
  match ids, a, e, fa, fe with
  | i :: ids', x :: a', y :: e', z :: fa', w :: fe' =>
      mkRow x y z w i :: assemble ids' a' e' fa' fe'
  | _, _, _, _, _ => []
  end.

Section Loader.

(** The two pandas entry points the loader relies on: [pd.read_csv]
    (file, encoding, delimiter) and [pd.to_datetime] on a whole column,
    which returns a column over the same rows. *)
Variable read_csv : string → string → string → outcome RawFrame.
Variable to_datetime : list string → outcome (list Timestamp).

(** The four column assignments [df[c] = pd.to_datetime(df[c])], in the
    order of the source. *)
Definition convert_columns (df : RawFrame) : outcome DataFrame :=
  c ← raw_column df "anfang" raw_anfang;
  a ← to_datetime c;
  c ← raw_column df "ende" raw_ende;
  e ← to_datetime c;
  c ← raw_column df "fahrt_anfang" raw_fahrt_anfang;
  fa ← to_datetime c;
  c ← raw_column df "fahrt_ende" raw_fahrt_ende;
  fe ← to_datetime c;
  Ok (assemble (map raw_fahrtneu_id (raw_rows df)) a e fa fe).

Definition load_and_sort_fahrten_data (csv_files : list string)
    (encoding delimiter : string)
  : outcome (list DataFrame * list string) :=
  let csv_files_sorted := sorted csv_files in
  raw_list ← mapM (λ f, read_csv f encoding delimiter) csv_files_sorted;
  df_list_sorted ← mapM convert_columns raw_list;
  Ok (df_list_sorted, csv_files).

(** [data.py]'s older copy of the loader; its encoding and delimiter are
    fixed and it returns the sorted names. *)
Definition read_csvs_sorted (csv_files : list string)
  : outcome (list DataFrame * list string) :=
  let csv_files_sorted := sorted csv_files in
  raw_list ← mapM (λ f, read_csv f "ISO-8859-1" ";") csv_files_sorted;
  df_list_sorted ← mapM convert_columns raw_list;
  Ok (df_list_sorted, csv_files_sorted).

Definition combine_and_verify_booking_data (csv_files : list string)
    (encoding delimiter : string) : logged DataFrame :=
  loaded ← lift (load_and_sort_fahrten_data csv_files encoding delimiter);
  let df_list_sorted := loaded.1 in
  let csv_files_sorted := loaded.2 in
  _ ← lift (verify_overlapping_bookings df_list_sorted);
  _ ← assert_time_difference_in_bookings df_list_sorted csv_files_sorted
        default_threshold_hours;
  lift (merge_nonoverlapping_dfs (PyList (map PyDataFrame df_list_sorted))).

End Loader.

(** ** Vocabulary of the specification *)

(** The specification's error kinds are the exceptions the code raises, told
    apart by their message. *)
Definition OverlapLengthMismatch (i : nat) : exn :=
  AssertionError (assert_msg_len i).
Definition OverlapIdentityMismatch (i : nat) : exn :=
  AssertionError (assert_msg_id i).
Definition GapTooLarge (threshold_hours : Z) (f_cur f_next : string) : exn :=
  AssertionError (gap_assert_msg threshold_hours f_cur f_next).
Definition InvalidInput : exn := merge_value_error.

(** The test on which both validators branch ([csv_handler.py], lines 137 and
    187), named as the specification names it. *)
Inductive Boundary : Type := Overlapping | Gapped.

Definition classify (cur nxt : DataFrame) : Boundary :=
  if ts_ge (series_max (col_anfang cur)) (series_min (col_anfang nxt))
  then Overlapping else Gapped.

(** The two windows the overlap check compares. *)
Definition overlap_current (cur nxt : DataFrame) : DataFrame :=
  select_ge cur (series_min (col_anfang nxt)).
Definition overlap_next (cur nxt : DataFrame) : DataFrame :=
  select_le nxt (series_max (col_anfang cur)).

(** The two assertions made on an overlapping boundary. *)
Definition overlap_assertions (i : nat) (cur nxt : DataFrame) : outcome unit :=
  _ ← assert_ (length (overlap_current cur nxt)
               =? length (overlap_next cur nxt)) (assert_msg_len i);
  assert_ (bool_decide
             (py_set (col_fahrtneu_id (overlap_current cur nxt))
              = py_set (col_fahrtneu_id (overlap_next cur nxt))))
    (assert_msg_id i).

(** What the gap check does on a boundary it does not find overlapping. *)
Definition gap_assertions (csv_files_sorted : list string)
    (threshold_hours : Z) (i : nat) (cur nxt : DataFrame) : logged unit :=
  let last := series_max (col_anfang cur) in
  let first := series_min (col_anfang nxt) in
  time_diff ← lift (ts_sub first last);
  f_cur ← lift (getitem csv_files_sorted i);
  f_next ← lift (getitem csv_files_sorted (i + 1));
  limit ← lift (timedelta_hours threshold_hours);
  _ ← lift (assert_ (td_le time_diff limit)
              (gap_assert_msg threshold_hours f_cur f_next));
  logging_warning (gap_warning_msg f_cur f_next last first).

(** [needle in hay] on strings. *)
Fixpoint contains (hay needle : string) : bool :=
  String.prefix needle hay ||
  match hay with
  | EmptyString => false
  | String _ hay' => contains hay' needle
  end.

(** The message of an exception. *)
Definition exn_message (e : exn) : string :=
  match e with
  | AssertionError m | ValueError m | IndexError m | PyError _ m => m
  end.

(** The merger as the specification words it: start from the first record
    set; for each later set keep the rows strictly newer than the running
    maximum of what has been merged, and append them. *)
Fixpoint merger_spec (merged : DataFrame) (later : list DataFrame)
  : DataFrame :=
  match later with
  | [] => merged
  | df :: later' =>
      let running_max := series_max (col_anfang merged) in
      let kept := List.filter (λ r, ts_gt (anfang r) running_max) df in
      merger_spec (merged ++ kept) later'
  end.

(** A list object whose elements are all data frames. *)
Definition frames (dfs : list DataFrame) : pyobj :=
  PyList (map PyDataFrame dfs).

(** ** data.py: the older copies of the two checks

    [data.py] writes the message inside the [assert] statement, so the
    f-string is evaluated only when the condition fails. *)

(** [assert cond, msg] with [msg] an expression that may itself raise. *)
Definition assert_lazy (cond : bool) (msg : outcome string) : outcome unit :=
  if cond then Ok tt
  else m ← msg; Raise (AssertionError m).

Definition check_overlaps_step (df_list_sorted : list DataFrame) (i : nat)
    (_ : unit) : outcome unit :=
  cur ← getitem df_list_sorted i;
  nxt ← getitem df_list_sorted (i + 1);
  let last_date_current_df := series_max (col_anfang cur) in
  let first_date_next_df := series_min (col_anfang nxt) in
  if ts_ge last_date_current_df first_date_next_df then
    let overlap_current_df := select_ge cur first_date_next_df in
    let overlap_next_df := select_le nxt last_date_current_df in
    _ ← assert_lazy (length overlap_current_df =? length overlap_next_df)
          (Ok ("The overlapping bookings have different lengths between files "
               +:+ pretty i +:+ " and " +:+ pretty (i + 1)));
    let overlap_current_id := col_fahrtneu_id overlap_current_df in
    let overlap_next_id := col_fahrtneu_id overlap_next_df in
    assert_lazy
      (bool_decide (py_set overlap_current_id = py_set overlap_next_id))
      (Ok ("The overlapping bookings do not align between files "
           +:+ pretty i +:+ " and " +:+ pretty (i + 1)))
  else Ok tt.

Definition check_overlaps (df_list_sorted : list DataFrame) : outcome unit :=
  for_in (range 0 (length df_list_sorted - 1))
    (check_overlaps_step df_list_sorted) tt.

Definition check_overlaps_with_time_step (df_list_sorted : list DataFrame)
    (csv_files_sorted : list string) (threshold_hours : Z) (i : nat)
    (_ : unit) : logged unit :=
  cur ← lift (getitem df_list_sorted i);
  let last_date_current_df := to_datetime_ts (series_max (col_anfang cur)) in
  nxt ← lift (getitem df_list_sorted (i + 1));
  let first_date_next_df := to_datetime_ts (series_min (col_anfang nxt)) in
  if negb (ts_ge last_date_current_df first_date_next_df) then
    time_diff ← lift (ts_sub first_date_next_df last_date_current_df);
    limit ← lift (timedelta_hours threshold_hours);
    _ ← lift (assert_lazy
                (td_le time_diff limit)
                (f_cur ← getitem csv_files_sorted i;
                 f_next ← getitem csv_files_sorted (i + 1);
                 Ok ("No overlap and time difference greater than "
                     +:+ pretty threshold_hours +:+ " hours between "
                     +:+ f_cur +:+ " and " +:+ f_next)));
    f_cur ← lift (getitem csv_files_sorted i);
    f_next ← lift (getitem csv_files_sorted (i + 1));
    logging_warning
      (gap_warning_msg f_cur f_next last_date_current_df first_date_next_df)
  else mret tt.

Definition check_overlaps_with_time (df_list_sorted : list DataFrame)
    (csv_files_sorted : list string) (threshold_hours : Z) : logged unit :=
  for_in_logged (range 0 (length df_list_sorted - 1))
    (check_overlaps_with_time_step df_list_sorted csv_files_sorted
       threshold_hours) tt.

(** ** Vocabulary for the further properties *)

(** The frame [df] is the file named [f], read and converted. *)
Definition loaded_from
    (read_csv : string → string → string → outcome RawFrame)
    (to_datetime : list string → outcome (list Timestamp))
    (encoding delimiter : string) (f : string) (df : DataFrame) : Prop :=
  ∃ raw, read_csv f encoding delimiter = Ok raw ∧
         convert_columns to_datetime raw = Ok df.

(** Whether the boundary after position [i] fails the test
    [last >= first] of the two checks. *)
Definition gapped_at (dfs : list DataFrame) (i : nat) : bool :=
  match dfs !! i, dfs !! (i + 1) with
  | Some cur, Some nxt =>
      negb (ts_ge (series_max (col_anfang cur)) (series_min (col_anfang nxt)))
  | _, _ => false
  end.

(** ** Sample data

    A few small export files, used to run the definitions above: the
    trailing rows of [a.csv] are re-emitted by [c.csv] (in another order) but
    only in part by [b.csv]; [d.csv] starts five hours after [c.csv] ends and
    seven hours after [a.csv] ends; [e.csv] starts at the very instant
    [a.csv] ends; [f.csv] holds a booking never seen before that starts
    before [a.csv] ends, and a later row that reuses an identifier of
    [a.csv]. *)
Module Sample.

Definition hour : Z := 3600000000000.

Definition clock : list (string * Z) :=
  [("2023-05-01 00:00", 0); ("2023-05-01 09:00", 9 * hour);
   ("2023-05-01 10:00", 10 * hour); ("2023-05-01 12:00", 12 * hour);
   ("2023-05-01 17:00", 17 * hour)]%Z.

Definition to_datetime_cell (s : string) : outcome Timestamp :=
  match List.find (λ p, String.eqb (fst p) s) clock with
  | Some p => Ok (Some (snd p))
  | None => Raise (ValueError "Unknown datetime string format")
  end.

Definition to_datetime (col : list string) : outcome (list Timestamp) :=
  mapM to_datetime_cell col.

Definition header : list string :=
  ["fahrtneu_id"; "anfang"; "ende"; "fahrt_anfang"; "fahrt_ende"].

Definition raw (start : string) (id : Z) : RawRow :=
  mkRawRow start start start start id.

Definition a_csv : RawFrame :=
  mkRawFrame header
    [raw "2023-05-01 00:00" 1; raw "2023-05-01 09:00" 2;
      raw "2023-05-01 10:00" 3].
Definition b_csv : RawFrame :=
  mkRawFrame header
    [raw "2023-05-01 09:00" 2; raw "2023-05-01 12:00" 4].
Definition c_csv : RawFrame :=
  mkRawFrame header
    [raw "2023-05-01 10:00" 3; raw "2023-05-01 09:00" 2;
      raw "2023-05-01 12:00" 4].
Definition d_csv : RawFrame :=
  mkRawFrame header
    [raw "2023-05-01 17:00" 5].
Definition e_csv : RawFrame :=
  mkRawFrame header
    [raw "2023-05-01 10:00" 3; raw "2023-05-01 12:00" 4].
Definition f_csv : RawFrame :=
  mkRawFrame header
    [raw "2023-05-01 09:00" 7; raw "2023-05-01 12:00" 3].

(** An export without the column [anfang]. *)
Definition g_csv : RawFrame :=
  mkRawFrame ["fahrtneu_id"; "ende"; "fahrt_anfang"; "fahrt_ende"]
    [raw "2023-05-01 09:00" 8].

Definition read_csv (f encoding delimiter : string) : outcome RawFrame :=
  if String.eqb f "a.csv" then Ok a_csv
  else if String.eqb f "b.csv" then Ok b_csv
  else if String.eqb f "c.csv" then Ok c_csv
  else if String.eqb f "d.csv" then Ok d_csv
  else if String.eqb f "e.csv" then Ok e_csv
  else if String.eqb f "f.csv" then Ok f_csv
  else Raise (PyError "FileNotFoundError" f).

Definition row (h : Z) (id : Z) : Row :=
  let t := Some (h * hour)%Z in mkRow t t t t id.

Definition frame_a : DataFrame := [row 0 1; row 9 2; row 10 3].
Definition frame_b : DataFrame := [row 9 2; row 12 4].
Definition frame_c : DataFrame := [row 10 3; row 9 2; row 12 4].
Definition frame_d : DataFrame := [row 17 5].
Definition frame_e : DataFrame := [row 10 3; row 12 4].
Definition frame_f : DataFrame := [row 9 7; row 12 3].

(** Two exports whose bookings lie 10^19 nanoseconds, some 317 years, apart;
    both are within the range of [pd.Timestamp]. *)
Definition row_at (t : Z) (id : Z) : Row :=
  let ts := Some t in mkRow ts ts ts ts id.

Definition frame_early : DataFrame := [row_at (-5000000000000000000) 1].
Definition frame_late : DataFrame := [row_at 5000000000000000000 2].

End Sample.

(** * Properties *)

(** ** Timestamps and series *)

Lemma ts_gt_le_false (a b : Timestamp) : ts_le a b = true → ts_gt a b = false.
Proof.
  destruct a as [x|], b as [y|]; simpl; try done.
  intros H. apply Z.leb_le in H. apply Z.ltb_ge. done.
Qed.

Lemma ts_gt_irrefl (a : Timestamp) : ts_gt a a = false.
Proof. destruct a as [x|]; simpl; [apply Z.ltb_irrefl | done]. Qed.

Lemma ts_ge_refl_Some (x : Z) : ts_ge (Some x) (Some x) = true.
Proof. simpl. apply Z.leb_refl. Qed.

Lemma ts_max2_assoc (a b c : Timestamp) :
  ts_max2 a (ts_max2 b c) = ts_max2 (ts_max2 a b) c.
Proof.
  destruct a, b, c; simpl; try done. by rewrite Z.max_assoc.
Qed.

Lemma series_max_app (s1 s2 : list Timestamp) :
  series_max (s1 ++ s2) = ts_max2 (series_max s1) (series_max s2).
Proof.
  induction s1 as [|t s1 IH]; simpl.
  - done.
  - unfold series_max in *. simpl. rewrite IH. apply ts_max2_assoc.
Qed.

(** Nothing is newer than the maximum of an empty (or all-[NaT]) column. *)
Lemma select_gt_NaT (df : DataFrame) : select_gt df NaT = [].
Proof.
  unfold select_gt. induction df as [|r df IH]; simpl; [done|].
  destruct (anfang r); simpl; exact IH.
Qed.

Lemma select_gt_In (df : DataFrame) (t : Timestamp) (r : Row) :
  In r (select_gt df t) ↔ In r df ∧ ts_gt (anfang r) t = true.
Proof. unfold select_gt. apply filter_In. Qed.

Lemma count_occ_select_gt_false (df : DataFrame) (t : Timestamp) (r : Row) :
  ts_gt (anfang r) t = false → count_occ Row_eq_dec (select_gt df t) r = 0.
Proof.
  intros H. apply count_occ_not_In. rewrite select_gt_In.
  intros [_ H']. congruence.
Qed.

Lemma count_occ_select_gt_true (df : DataFrame) (t : Timestamp) (r : Row) :
  ts_gt (anfang r) t = true →
  count_occ Row_eq_dec (select_gt df t) r = count_occ Row_eq_dec df r.
Proof.
  intros H. unfold select_gt. induction df as [|r' df IH]; simpl; [done|].
  destruct (Row_eq_dec r' r) as [->|Hne].
  - rewrite H. simpl. destruct (Row_eq_dec r r); [|done]. by rewrite IH.
  - destruct (ts_gt (anfang r') t); simpl; [|done].
    destruct (Row_eq_dec r' r); done.
Qed.

(** Appending the rows kept at one step never lowers the running maximum. *)
Lemma running_max_grows (merged df : DataFrame) (t : Timestamp) :
  let kept := select_gt df (series_max (col_anfang merged)) in
  ts_gt t (series_max (col_anfang merged)) = false →
  ts_gt t (series_max (col_anfang (merged ++ kept))) = false.
Proof.
  intros kept H. unfold col_anfang. rewrite map_app, series_max_app.
  fold (col_anfang merged) (col_anfang kept).
  destruct (series_max (col_anfang merged)) as [m|] eqn:Hm.
  - destruct (series_max (col_anfang kept)) as [k|]; simpl; [|exact H].
    destruct t as [x|]; simpl in *; [|done].
    apply Z.ltb_ge in H. apply Z.ltb_ge. lia.
  - subst kept. rewrite select_gt_NaT. simpl. by destruct t.
Qed.

(** ** The merger *)

Lemma getitem_middle {A} (pre post : list A) (x : A) :
  getitem (pre ++ x :: post) (length pre) = Ok x.
Proof. unfold getitem. by rewrite list_lookup_middle. Qed.

(** The index loop over positions [length pre ..] of [pre ++ later] is the
    structural recursion over [later]. *)
Lemma merge_loop_from (later pre : list DataFrame) (merged : DataFrame) :
  for_in (seq (length pre) (length later)) (merge_step (pre ++ later)) merged
  = Ok (merger_spec merged later).
Proof.
  revert pre merged. induction later as [|df later IH]; intros pre merged.
  - done.
  - simpl. unfold merge_step at 1. rewrite getitem_middle. simpl.
    specialize (IH (pre ++ [df])). rewrite length_app in IH. simpl in IH.
    rewrite Nat.add_1_r, <- app_assoc in IH. simpl in IH.
    apply IH.
Qed.

Lemma frames_guard (dfs : list DataFrame) :
  forallb isinstance_DataFrame (map PyDataFrame dfs) = true.
Proof. induction dfs; simpl; auto. Qed.

Lemma frames_view (dfs : list DataFrame) :
  omap as_DataFrame (map PyDataFrame dfs) = dfs.
Proof. induction dfs as [|df dfs IH]; simpl; [done|]. f_equal. exact IH. Qed.

Lemma merge_frames (first : DataFrame) (later : list DataFrame) :
  merge_nonoverlapping_dfs (frames (first :: later))
  = Ok (merger_spec first later).
Proof.
  unfold frames, merge_nonoverlapping_dfs. cbn [isinstance_list list_items].
  rewrite frames_guard, frames_view. unfold merge_loop, range. simpl.
  rewrite Nat.sub_0_r. apply (merge_loop_from later [first]).
Qed.

Lemma merger_spec_app (merged : DataFrame) (l1 l2 : list DataFrame) :
  merger_spec merged (l1 ++ l2) = merger_spec (merger_spec merged l1) l2.
Proof.
  revert merged. induction l1 as [|df l1 IH]; intros merged; simpl; [done|].
  apply IH.
Qed.

(** What has been merged stays, in place, at the front. *)
Lemma merger_spec_prefix (later : list DataFrame) (merged : DataFrame) :
  ∃ added, merger_spec merged later = merged ++ added.
Proof.
  revert merged. induction later as [|df later IH]; intros merged; simpl.
  - exists []. by rewrite app_nil_r.
  - destruct (IH (merged ++
      List.filter (λ r, ts_gt (anfang r) (series_max (col_anfang merged))) df))
      as [added ->].
    eexists. by rewrite <- app_assoc.
Qed.

(** A row that is not newer than the running maximum is never added again,
    at this step or at any later one. *)
Lemma merger_spec_count_old (later : list DataFrame) (merged : DataFrame)
    (r : Row) :
  ts_gt (anfang r) (series_max (col_anfang merged)) = false →
  count_occ Row_eq_dec (merger_spec merged later) r
  = count_occ Row_eq_dec merged r.
Proof.
  revert merged. induction later as [|df later IH]; intros merged H; simpl.
  - done.
  - fold (select_gt df (series_max (col_anfang merged))).
    rewrite IH by (by apply running_max_grows).
    rewrite count_occ_app, count_occ_select_gt_false by done. lia.
Qed.

Lemma merger_spec_step (first : DataFrame) (later : list DataFrame) (k : nat)
    (df : DataFrame) :
  later !! k = Some df →
  let master := merger_spec first (take k later) in
  merger_spec first (take (S k) later)
  = master ++ select_gt df (series_max (col_anfang master)) ∧
  merger_spec first later
  = merger_spec (master ++ select_gt df (series_max (col_anfang master)))
      (drop (S k) later).
Proof.
  intros Hk master.
  assert (Htake : take (S k) later = take k later ++ [df])
    by (by apply take_S_r).
  split.
  - rewrite Htake, merger_spec_app. done.
  - rewrite <- (take_drop (S k) later) at 1.
    rewrite merger_spec_app, Htake, merger_spec_app. done.
Qed.

(** C2. For every non-empty list of record sets the merger computes what
    the specification describes: the result starts as the first set, and each
    later set contributes, in list order, exactly its rows whose [anfang] is
    strictly greater than the maximum [anfang] merged so far. Consequently a
    boundary record (a row whose [anfang] equals the running maximum) is not
    taken from the later set: the merged output holds as many copies of it
    as the earlier sets supplied, in particular exactly one for two adjacent
    sets with [last = first] whose earlier set holds it once. *)
Theorem merge_follows_spec :
  (∀ first later,
     merge_nonoverlapping_dfs (frames (first :: later))
     = Ok (merger_spec first later)) ∧
  (∀ first later k df master,
     later !! k = Some df →
     merge_nonoverlapping_dfs (frames (first :: take k later)) = Ok master →
     let running_max := series_max (col_anfang master) in
     merge_nonoverlapping_dfs (frames (first :: take (S k) later))
       = Ok (master ++ List.filter (λ r, ts_gt (anfang r) running_max) df) ∧
     ∀ r, anfang r = running_max →
       ¬ In r (List.filter (λ r, ts_gt (anfang r) running_max) df) ∧
       ∀ out, merge_nonoverlapping_dfs (frames (first :: later)) = Ok out →
         count_occ Row_eq_dec out r = count_occ Row_eq_dec master r) ∧
  (∀ A B r out,
     series_max (col_anfang A) = series_min (col_anfang B) →
     anfang r = series_max (col_anfang A) →
     In r B →
     count_occ Row_eq_dec A r = 1 →
     merge_nonoverlapping_dfs (frames [A; B]) = Ok out →
     count_occ Row_eq_dec out r = 1 ∧
     out = A ++ List.filter (λ r', ts_gt (anfang r') (anfang r)) B).
Proof.
  split; [apply merge_frames|]. split.
  - intros first later k df master Hk Hm running_max.
    rewrite merge_frames in Hm. injection Hm as <-.
    destruct (merger_spec_step first later k df Hk) as [Hstep Hall].
    split; [by rewrite merge_frames, Hstep|].
    intros r Hr.
    assert (Hold : ts_gt (anfang r) running_max = false)
      by (rewrite Hr; apply ts_gt_irrefl).
    split.
    + rewrite filter_In. intros [_ H]. congruence.
    + intros out Hout. rewrite merge_frames in Hout. injection Hout as <-.
      rewrite Hall.
      rewrite merger_spec_count_old by (by apply running_max_grows).
      rewrite count_occ_app, count_occ_select_gt_false by done. lia.
  - intros A B r out _ Hr _ Hone Hout.
    rewrite merge_frames in Hout. injection Hout as <-.
    split.
    + rewrite <- Hone. apply (merger_spec_count_old [B] A r).
      rewrite Hr. apply ts_gt_irrefl.
    + simpl. by rewrite Hr.
Qed.

(** C9. Merging a one-element list returns that record set as it is. *)
Theorem merge_single (A : DataFrame) :
  merge_nonoverlapping_dfs (PyList [PyDataFrame A]) = Ok A.
Proof. reflexivity. Qed.

(** C10. The merger selects rows by [anfang] alone. Every row of the first
    record set is in the output. For a later set, at the step that handles
    it: a row not newer than the running maximum adds no copy to the output,
    so that a booking whose identifier was never seen before is lost
    altogether; a row strictly newer than the running maximum is in the
    output whatever its identifier, also when that identifier is already
    present. *)
Theorem merge_selects_by_time_only (first : DataFrame)
    (later : list DataFrame) (out : DataFrame) :
  merge_nonoverlapping_dfs (frames (first :: later)) = Ok out →
  (∀ r, In r first → In r out) ∧
  (∀ k df master r,
     later !! k = Some df →
     merge_nonoverlapping_dfs (frames (first :: take k later)) = Ok master →
     In r df →
     let running_max := series_max (col_anfang master) in
     (ts_le (anfang r) running_max = true →
        count_occ Row_eq_dec out r = count_occ Row_eq_dec master r ∧
        ((∀ r', In r' master → fahrtneu_id r' ≠ fahrtneu_id r) →
         ¬ In r out)) ∧
     (ts_gt (anfang r) running_max = true →
        In r out ∧
        count_occ Row_eq_dec out r
        ≥ count_occ Row_eq_dec master r + count_occ Row_eq_dec df r)).
Proof.
  intros Hout. rewrite merge_frames in Hout. injection Hout as <-.
  split.
  - intros r Hr. destruct (merger_spec_prefix later first) as [added ->].
    apply in_or_app. by left.
  - intros k df master r Hk Hm Hr running_max.
    rewrite merge_frames in Hm. injection Hm as <-.
    destruct (merger_spec_step first later k df Hk) as [_ Hall].
    set (master := merger_spec first (take k later)) in *.
    assert (Hnew : ts_gt (anfang r) running_max = true → In r
              (merger_spec first later)).
    { intros Hgt. rewrite Hall.
      destruct (merger_spec_prefix (drop (S k) later)
                  (master ++ select_gt df (series_max (col_anfang master))))
        as [added ->].
      apply in_or_app. left. apply in_or_app. right.
      apply select_gt_In. done. }
    split.
    + intros Hle. apply ts_gt_le_false in Hle.
      assert (Hcount : count_occ Row_eq_dec (merger_spec first later) r
                       = count_occ Row_eq_dec master r).
      { rewrite Hall.
        rewrite merger_spec_count_old by (by apply running_max_grows).
        rewrite count_occ_app, count_occ_select_gt_false by done. lia. }
      split; [exact Hcount|].
      intros Hfresh Hin.
      apply (count_occ_In Row_eq_dec) in Hin. rewrite Hcount in Hin.
      apply (count_occ_In Row_eq_dec) in Hin.
      by apply (Hfresh r Hin).
    + intros Hgt. split; [by apply Hnew|].
      rewrite Hall.
      destruct (merger_spec_prefix (drop (S k) later)
                  (master ++ select_gt df (series_max (col_anfang master))))
        as [added ->].
      rewrite !count_occ_app, count_occ_select_gt_true by done. lia.
Qed.

(** ** Malformed input to the merger *)

Lemma guard_passes_only_frames (items : list pyobj) :
  forallb isinstance_DataFrame items = true →
  items = map PyDataFrame (omap as_DataFrame items).
Proof.
  induction items as [|o items IH]; [done|].
  simpl. intros H. apply andb_prop in H as [Ho Hitems].
  destruct o; try discriminate. simpl. f_equal. by apply IH.
Qed.

(** C7, as the code has it. The merger raises its [ValueError] for every
    argument that is not a list of data frames (not a list at all, or a list
    with an element of another type). The empty list passes that guard and
    fails on [df_list_sorted[0]] with an [IndexError]. A merged set is
    returned for non-empty lists of data frames only. *)
Theorem merge_rejects_malformed :
  (∀ o, (∀ dfs, o ≠ frames dfs) →
        merge_nonoverlapping_dfs o = Raise InvalidInput) ∧
  merge_nonoverlapping_dfs (PyList [])
    = Raise (IndexError "list index out of range") ∧
  (∀ o out, merge_nonoverlapping_dfs o = Ok out →
            ∃ first later, o = frames (first :: later)).
Proof.
  split; [|split].
  - intros o Ho. destruct o as [df|items| | |]; try reflexivity.
    unfold merge_nonoverlapping_dfs. cbn [isinstance_list list_items negb orb].
    destruct (forallb isinstance_DataFrame items) eqn:Hg; [|done].
    exfalso. apply (Ho (omap as_DataFrame items)).
    unfold frames. f_equal. by apply guard_passes_only_frames.
  - reflexivity.
  - intros o out H. destruct o as [df|items| | |]; try discriminate.
    unfold merge_nonoverlapping_dfs in H.
    cbn [isinstance_list list_items negb orb] in H.
    destruct (forallb isinstance_DataFrame items) eqn:Hg;
      [|discriminate].
    apply guard_passes_only_frames in Hg.
    destruct (omap as_DataFrame items) as [|first later] eqn:Hv.
    + discriminate.
    + exists first, later. unfold frames. by f_equal.
Qed.

(** C7 as stated fails: the empty list is not a non-empty sequence of record
    sets, yet the merger does not answer it with [InvalidInput]. *)
Lemma merge_empty_list_not_InvalidInput :
  ¬ (∀ o, (∀ first later, o ≠ frames (first :: later)) →
          ∃ msg, merge_nonoverlapping_dfs o = Raise (ValueError msg)).
Proof.
  intros H. destruct (H (PyList [])) as [msg Hmsg].
  - intros first later. discriminate.
  - discriminate.
Qed.

(** ** Loops over the boundaries *)

Lemma for_in_unit_raise (idx : list nat) (body : nat → unit → outcome unit)
    (e : exn) :
  for_in idx body tt = Raise e → ∃ i, In i idx ∧ body i tt = Raise e.
Proof.
  induction idx as [|i idx IH]; simpl; [discriminate|].
  destruct (body i tt) as [[]|e'] eqn:Hb.
  - intros H. destruct (IH H) as (j & Hj & Hbj). eauto.
  - intros [= ->]. eauto.
Qed.

Lemma for_in_logged_unit_raise (idx : list nat)
    (body : nat → unit → logged unit) (e : exn) :
  result (for_in_logged idx body tt) = Raise e →
  ∃ i, In i idx ∧ result (body i tt) = Raise e.
Proof.
  induction idx as [|i idx IH]; simpl; [discriminate|].
  unfold mbind, logged_bind.
  destruct (body i tt) as [[[]|e'] log] eqn:Hb.
  - destruct (for_in_logged idx body ()) as [r log'] eqn:Hrest. simpl in *.
    intros H. destruct (IH H) as (j & Hj & Hbj). eauto.
  - simpl. intros [= ->]. exists i. rewrite Hb. eauto.
Qed.

Lemma in_range_0 (n i : nat) : In i (range 0 n) ↔ i < n.
Proof. unfold range. rewrite in_seq. lia. Qed.

Lemma for_in_unit_ok (idx : list nat) (body : nat → unit → outcome unit) :
  for_in idx body tt = Ok tt ↔ ∀ i, In i idx → body i tt = Ok tt.
Proof.
  induction idx as [|i idx IH]; simpl.
  - split; [intros _ i [] | done].
  - destruct (body i tt) as [[]|e] eqn:Hb.
    + rewrite IH. split.
      * intros H j [<-|Hj]; [done | by apply H].
      * intros H j Hj. apply H. by right.
    + split; [discriminate|]. intros H.
      specialize (H i (or_introl eq_refl)). congruence.
Qed.

Lemma for_in_logged_unit_ok (idx : list nat)
    (body : nat → unit → logged unit) :
  result (for_in_logged idx body tt) = Ok tt
  ↔ ∀ i, In i idx → result (body i tt) = Ok tt.
Proof.
  induction idx as [|i idx IH]; simpl.
  - split; [intros _ i [] | done].
  - unfold mbind, logged_bind.
    destruct (body i tt) as [[[]|e] log] eqn:Hb.
    + destruct (for_in_logged idx body ()) as [r log'] eqn:Hrest.
      simpl in *. rewrite IH. split.
      * intros H j [<-|Hj]; [by rewrite Hb | by apply H].
      * intros H j Hj. apply H. by right.
    + simpl. split; [discriminate|]. intros H.
      specialize (H i (or_introl eq_refl)). rewrite Hb in H. done.
Qed.

(** Each check passes exactly when its loop body passes on every boundary. *)
Lemma verify_passes_iff (dfs : list DataFrame) :
  verify_overlapping_bookings dfs = Ok tt
  ↔ ∀ i, i + 1 < length dfs → verify_step dfs i tt = Ok tt.
Proof.
  unfold verify_overlapping_bookings. rewrite for_in_unit_ok.
  split; intros H i Hi; apply H.
  - apply in_range_0. lia.
  - apply in_range_0 in Hi. lia.
Qed.

Lemma gap_passes_iff (dfs : list DataFrame) (files : list string) (th : Z) :
  result (assert_time_difference_in_bookings dfs files th) = Ok tt
  ↔ ∀ i, i + 1 < length dfs → result (gap_step dfs files th i tt) = Ok tt.
Proof.
  unfold assert_time_difference_in_bookings. rewrite for_in_logged_unit_ok.
  split; intros H i Hi; apply H.
  - apply in_range_0. lia.
  - apply in_range_0 in Hi. lia.
Qed.

Lemma for_in_ext {St} (idx : list nat) (f g : nat → St → outcome St) (s : St) :
  (∀ i s', In i idx → f i s' = g i s') → for_in idx f s = for_in idx g s.
Proof.
  revert s. induction idx as [|i idx IH]; intros s H; simpl; [done|].
  rewrite (H i s) by (by left).
  destruct (g i s); [|done]. apply IH. intros j s' Hj. apply H. by right.
Qed.

Lemma for_in_logged_ext {St} (idx : list nat) (f g : nat → St → logged St)
    (s : St) :
  (∀ i s', In i idx → f i s' = g i s') →
  for_in_logged idx f s = for_in_logged idx g s.
Proof.
  revert s. induction idx as [|i idx IH]; intros s H; simpl; [done|].
  rewrite (H i s) by (by left).
  unfold mbind, logged_bind. destruct (g i s) as [[s'|e] log]; [|done].
  rewrite IH; [done|]. intros j s'' Hj. apply H. by right.
Qed.

Lemma for_in_app {St} (l1 l2 : list nat) (body : nat → St → outcome St)
    (s : St) :
  for_in (l1 ++ l2) body s
  = match for_in l1 body s with
    | Ok s' => for_in l2 body s'
    | Raise e => Raise e
    end.
Proof.
  revert s. induction l1 as [|i l1 IH]; intros s; simpl; [done|].
  destruct (body i s); [apply IH | done].
Qed.

Lemma for_in_logged_app {St} (l1 l2 : list nat)
    (body : nat → St → logged St) (s : St) :
  for_in_logged (l1 ++ l2) body s
  = (for_in_logged l1 body s ≫= for_in_logged l2 body).
Proof.
  revert s. induction l1 as [|i l1 IH]; intros s; simpl.
  - unfold mret, logged_ret, mbind, logged_bind.
    by destruct (for_in_logged l2 body s).
  - unfold mbind, logged_bind. destruct (body i s) as [[s'|e] log]; [|done].
    rewrite IH. unfold mbind, logged_bind.
    destruct (for_in_logged l1 body s') as [[s''|e] log1]; [|done].
    destruct (for_in_logged l2 body s'') as [r log2]. by rewrite app_assoc.
Qed.

Lemma for_in_logged_shift {St} (m a b : nat) (f g : nat → St → logged St)
    (s : St) :
  (∀ j s', f (a + j) s' = g (b + j) s') →
  for_in_logged (seq a m) f s = for_in_logged (seq b m) g s.
Proof.
  revert a b s. induction m as [|m IH]; intros a b s H; simpl; [done|].
  pose proof (H 0 s) as H0. rewrite !Nat.add_0_r in H0. rewrite H0.
  unfold mbind, logged_bind. destruct (g b s) as [[s'|e] log]; [|done].
  rewrite (IH (S a) (S b)); [done|]. intros j s''.
  replace (S a + j) with (a + S j) by lia.
  replace (S b + j) with (b + S j) by lia. apply H.
Qed.

Lemma range_split (a b : nat) :
  a ≤ b → range 0 b = range 0 a ++ seq a (b - a).
Proof.
  intros H. unfold range. rewrite !Nat.sub_0_r.
  transitivity (seq 0 (a + (b - a))); [f_equal; lia | apply seq_app].
Qed.

(** ** The overlap check *)

Lemma getitem_Some {A} (xs : list A) (i : nat) (x : A) :
  xs !! i = Some x → getitem xs i = Ok x.
Proof. unfold getitem. by intros ->. Qed.

Lemma verify_step_classify (dfs : list DataFrame) (i : nat)
    (cur nxt : DataFrame) :
  dfs !! i = Some cur → dfs !! (i + 1) = Some nxt →
  verify_step dfs i tt
  = match classify cur nxt with
    | Overlapping => overlap_assertions i cur nxt
    | Gapped => Ok tt
    end.
Proof.
  intros Hc Hn. unfold verify_step, classify.
  rewrite (getitem_Some _ _ _ Hc), (getitem_Some _ _ _ Hn). simpl.
  by destruct (ts_ge _ _).
Qed.

Lemma assert_msgs_differ (i j : nat) : assert_msg_len i ≠ assert_msg_id j.
Proof. unfold assert_msg_len, assert_msg_id. simpl. discriminate. Qed.

Lemma ts_max2_swap (a b c : Timestamp) :
  ts_max2 a (ts_max2 b c) = ts_max2 b (ts_max2 a c).
Proof.
  destruct a, b, c; simpl; try done; f_equal; lia.
Qed.

Lemma ts_min2_swap (a b c : Timestamp) :
  ts_min2 a (ts_min2 b c) = ts_min2 b (ts_min2 a c).
Proof.
  destruct a, b, c; simpl; try done; f_equal; lia.
Qed.

Lemma series_max_perm (s1 s2 : list Timestamp) :
  Permutation s1 s2 → series_max s1 = series_max s2.
Proof.
  unfold series_max. induction 1; simpl.
  - done.
  - by f_equal.
  - apply ts_max2_swap.
  - congruence.
Qed.

Lemma series_min_perm (s1 s2 : list Timestamp) :
  Permutation s1 s2 → series_min s1 = series_min s2.
Proof.
  unfold series_min. induction 1; simpl.
  - done.
  - by f_equal.
  - apply ts_min2_swap.
  - congruence.
Qed.

Lemma filter_perm {A} (f : A → bool) (l1 l2 : list A) :
  Permutation l1 l2 → Permutation (List.filter f l1) (List.filter f l2).
Proof.
  induction 1; simpl.
  - constructor.
  - destruct (f x); [by constructor | done].
  - destruct (f x), (f y); try reflexivity. apply perm_swap.
  - by etransitivity.
Qed.

(** The overlap check does not depend on the order of the rows. *)
Lemma overlap_assertions_perm (i : nat) (A A' B B' : DataFrame) :
  Permutation A A' → Permutation B B' →
  classify A' B' = classify A B ∧
  overlap_assertions i A' B' = overlap_assertions i A B.
Proof.
  intros HA HB.
  assert (Hmax : series_max (col_anfang A') = series_max (col_anfang A))
    by (symmetry; apply series_max_perm, Permutation_map, HA).
  assert (Hmin : series_min (col_anfang B') = series_min (col_anfang B))
    by (symmetry; apply series_min_perm, Permutation_map, HB).
  split; [unfold classify; by rewrite Hmax, Hmin|].
  unfold overlap_assertions, overlap_current, overlap_next.
  rewrite Hmax, Hmin.
  assert (HwA : Permutation (select_ge A (series_min (col_anfang B)))
                            (select_ge A' (series_min (col_anfang B))))
    by (by apply filter_perm).
  assert (HwB : Permutation (select_le B (series_max (col_anfang A)))
                            (select_le B' (series_max (col_anfang A))))
    by (by apply filter_perm).
  rewrite <- (Permutation_length HwA), <- (Permutation_length HwB).
  assert (HsA : py_set (col_fahrtneu_id (select_ge A' (series_min (col_anfang B))))
                = py_set (col_fahrtneu_id (select_ge A (series_min (col_anfang B))))).
  { unfold py_set. apply list_to_set_perm_L.
    symmetry. apply Permutation_map, HwA. }
  assert (HsB : py_set (col_fahrtneu_id (select_le B' (series_max (col_anfang A))))
                = py_set (col_fahrtneu_id (select_le B (series_max (col_anfang A))))).
  { unfold py_set. apply list_to_set_perm_L.
    symmetry. apply Permutation_map, HwB. }
  by rewrite HsA, HsB.
Qed.

Lemma verify_two (A B : DataFrame) :
  verify_overlapping_bookings [A; B] = verify_step [A; B] 0 tt.
Proof.
  unfold verify_overlapping_bookings. simpl.
  by destruct (verify_step [A; B] 0 tt) as [[]|].
Qed.

(** The overlap check on the first [n] frames runs the loop body of the
    full list over the first [n-1] boundaries. *)
Lemma verify_step_take (dfs : list DataFrame) (n j : nat) :
  j + 1 < n → verify_step (take n dfs) j tt = verify_step dfs j tt.
Proof.
  intros H. unfold verify_step, getitem. by rewrite !lookup_take_lt by lia.
Qed.

Lemma verify_take (dfs : list DataFrame) (n : nat) :
  n ≤ length dfs →
  verify_overlapping_bookings (take n dfs)
  = for_in (range 0 (n - 1)) (verify_step dfs) tt.
Proof.
  intros H. unfold verify_overlapping_bookings. rewrite length_take_le by done.
  apply for_in_ext. intros j [] Hj. apply in_range_0 in Hj.
  apply verify_step_take. lia.
Qed.

Lemma verify_snoc (dfs : list DataFrame) (i : nat) :
  i + 1 < length dfs →
  verify_overlapping_bookings (take (i + 2) dfs)
  = match verify_overlapping_bookings (take (i + 1) dfs) with
    | Ok _ => verify_step dfs i tt
    | Raise e => Raise e
    end.
Proof.
  intros H. rewrite !verify_take by lia.
  replace (i + 2 - 1) with (i + 1) by lia. replace (i + 1 - 1) with i by lia.
  rewrite (range_split i (i + 1)) by lia. replace (i + 1 - i) with 1 by lia.
  rewrite for_in_app. destruct (for_in (range 0 i) _ tt) as [[]|]; [|done].
  simpl. by destruct (verify_step dfs i tt) as [[]|].
Qed.

Lemma verify_prefix_raise (dfs : list DataFrame) (n : nat) (e : exn) :
  n ≤ length dfs →
  verify_overlapping_bookings (take n dfs) = Raise e →
  verify_overlapping_bookings dfs = Raise e.
Proof.
  intros H Hr. rewrite verify_take in Hr by done.
  unfold verify_overlapping_bookings.
  rewrite (range_split (n - 1) (length dfs - 1)) by lia.
  by rewrite for_in_app, Hr.
Qed.

Lemma overlap_assertions_verdict (i : nat) (A B : DataFrame) :
  let lenA := length (overlap_current A B) in
  let lenB := length (overlap_next A B) in
  let idsA := py_set (col_fahrtneu_id (overlap_current A B)) in
  let idsB := py_set (col_fahrtneu_id (overlap_next A B)) in
  (overlap_assertions i A B = Raise (OverlapLengthMismatch i)
   ↔ lenA ≠ lenB) ∧
  (lenA = lenB →
   (overlap_assertions i A B = Raise (OverlapIdentityMismatch i)
    ↔ idsA ≠ idsB)) ∧
  (overlap_assertions i A B = Ok tt ↔ lenA = lenB ∧ idsA = idsB).
Proof.
  intros lenA lenB idsA idsB. unfold overlap_assertions.
  fold lenA lenB idsA idsB.
  unfold OverlapLengthMismatch, OverlapIdentityMismatch.
  pose proof (assert_msgs_differ i i) as Hmsg.
  destruct (Nat.eqb_spec lenA lenB) as [Hlen|Hlen]; simpl.
  - destruct (decide (idsA = idsB)) as [Hids|Hids].
    + rewrite bool_decide_eq_true_2 by done. simpl. naive_solver.
    + rewrite bool_decide_eq_false_2 by done. simpl. naive_solver.
  - naive_solver.
Qed.

(** C1. Let the boundary between [A] (position [i]) and [B] (position
    [i+1]) be overlapping, and let the overlap validator pass every earlier
    boundary. Run up to and including this boundary, the validator raises
    OverlapLengthMismatch exactly when the two windows differ in their
    number of rows; when the numbers agree it raises
    OverlapIdentityMismatch exactly when the windows differ in their set of
    [fahrtneu_id]; it passes exactly when both agree. A mismatch here is the
    outcome of the validator on the whole list. The verdict does not depend
    on the order of the rows. *)
Theorem overlap_check_verdict (dfs : list DataFrame) (i : nat)
    (A B : DataFrame) :
  dfs !! i = Some A → dfs !! (i + 1) = Some B →
  let last := series_max (col_anfang A) in
  let first := series_min (col_anfang B) in
  ts_ge last first = true →
  verify_overlapping_bookings (take (i + 1) dfs) = Ok tt →
  let overlapA := List.filter (λ r, ts_ge (anfang r) first) A in
  let overlapB := List.filter (λ r, ts_le (anfang r) last) B in
  let idsA : gset Z := list_to_set (map fahrtneu_id overlapA) in
  let idsB : gset Z := list_to_set (map fahrtneu_id overlapB) in
  let here := verify_overlapping_bookings (take (i + 2) dfs) in
  (here = Raise (OverlapLengthMismatch i)
   ↔ length overlapA ≠ length overlapB) ∧
  (length overlapA = length overlapB →
   (here = Raise (OverlapIdentityMismatch i) ↔ idsA ≠ idsB)) ∧
  (here = Ok tt ↔ length overlapA = length overlapB ∧ idsA = idsB) ∧
  (length overlapA ≠ length overlapB →
   verify_overlapping_bookings dfs = Raise (OverlapLengthMismatch i)) ∧
  (length overlapA = length overlapB → idsA ≠ idsB →
   verify_overlapping_bookings dfs = Raise (OverlapIdentityMismatch i)) ∧
  (∀ A' B' : DataFrame, Permutation A A' → Permutation B B' →
     verify_overlapping_bookings [A'; B'] = verify_overlapping_bookings [A; B]).
Proof.
  intros HA HB last first Hov Hbefore overlapA overlapB idsA idsB here.
  assert (Hi : i + 1 < length dfs) by (by eapply lookup_lt_Some).
  assert (Hhere : here = overlap_assertions i A B).
  { unfold here. rewrite (verify_snoc dfs i Hi), Hbefore.
    rewrite (verify_step_classify dfs i A B HA HB).
    unfold classify. fold last first. by rewrite Hov. }
  assert (Hfull : ∀ e, here = Raise e →
                       verify_overlapping_bookings dfs = Raise e).
  { intros e. apply verify_prefix_raise. lia. }
  destruct (overlap_assertions_verdict i A B) as (Hlen & Hid & Hok).
  rewrite <- Hhere in Hlen, Hid, Hok.
  split; [exact Hlen|]. split; [exact Hid|]. split; [exact Hok|].
  split; [|split].
  - intros H. apply Hfull. by apply Hlen.
  - intros H1 H2. apply Hfull. by apply Hid.
  - intros A' B' HA' HB'. rewrite !verify_two.
    rewrite (verify_step_classify [A'; B'] 0 A' B') by done.
    rewrite (verify_step_classify [A; B] 0 A B) by done.
    by destruct (overlap_assertions_perm 0 A A' B B' HA' HB') as [-> ->].
Qed.

(** ** The gap check *)

Lemma logged_bind_lift_Ok {A B} (a : A) (f : A → logged B) :
  (lift (Ok a) ≫= f) = f a.
Proof. unfold mbind, logged_bind, lift. by destruct (f a). Qed.

Lemma logged_bind_ret_r {A} (m : logged A) (f : A → logged A) :
  (∀ a, f a = Logged (Ok a) []) → (m ≫= f) = m.
Proof.
  intros H. unfold mbind, logged_bind. destruct m as [[a|e] log]; [|done].
  by rewrite H, app_nil_r.
Qed.

Lemma gap_step_classify (dfs : list DataFrame) (files : list string)
    (th : Z) (i : nat) (cur nxt : DataFrame) :
  dfs !! i = Some cur → dfs !! (i + 1) = Some nxt →
  gap_step dfs files th i tt
  = match classify cur nxt with
    | Overlapping => Logged (Ok tt) []
    | Gapped => gap_assertions files th i cur nxt
    end.
Proof.
  intros Hc Hn. unfold gap_step, classify, gap_assertions, to_datetime_ts.
  rewrite (getitem_Some _ _ _ Hc), (getitem_Some _ _ _ Hn).
  rewrite !logged_bind_lift_Ok.
  by destruct (ts_ge _ _).
Qed.

(** A positive difference that fits 64 bits is a [pd.Timedelta]. *)
Lemma ts_sub_gap (first last : Z) :
  (last < first)%Z → (first - last ≤ int64_max)%Z →
  ts_sub (Some first) (Some last) = Ok (Some (first - last)%Z).
Proof.
  intros Hlt Hfit. unfold ts_sub. cbv zeta.
  rewrite (proj2 (Z.ltb_ge _ _)) by (unfold int64_min; lia).
  rewrite (proj2 (Z.ltb_ge _ _)) by lia. simpl.
  by rewrite (proj2 (Z.eqb_neq _ _)) by (unfold int64_min; lia).
Qed.

Lemma ts_sub_too_large (first last : Z) :
  (int64_max < first - last)%Z →
  ts_sub (Some first) (Some last) = Raise out_of_bounds_datetime.
Proof.
  intros H. unfold ts_sub. cbv zeta.
  rewrite (proj2 (Z.ltb_lt int64_max _)) by lia. by rewrite orb_true_r.
Qed.

Lemma timedelta_hours_Ok (th : Z) :
  (timedelta_min_hours ≤ th ≤ timedelta_max_hours)%Z →
  timedelta_hours th = Ok (hours_ns th).
Proof.
  intros [H1 H2]. unfold timedelta_hours.
  by rewrite (proj2 (Z.leb_le _ _) H1), (proj2 (Z.leb_le _ _) H2).
Qed.

Lemma timedelta_hours_inv (th limit : Z) :
  timedelta_hours th = Ok limit →
  limit = hours_ns th ∧ (timedelta_min_hours ≤ th ≤ timedelta_max_hours)%Z.
Proof.
  unfold timedelta_hours.
  destruct (Z.leb_spec timedelta_min_hours th);
    destruct (Z.leb_spec th timedelta_max_hours); simpl; try discriminate.
  intros [= <-]. by repeat split.
Qed.

Lemma timedelta_hours_Raise (th : Z) :
  ¬ (timedelta_min_hours ≤ th ≤ timedelta_max_hours)%Z →
  timedelta_hours th = Raise (timedelta_overflow th).
Proof.
  intros H. unfold timedelta_hours.
  destruct (Z.leb_spec timedelta_min_hours th);
    destruct (Z.leb_spec th timedelta_max_hours); simpl; try done.
  exfalso. apply H. lia.
Qed.

Lemma gap_assertions_run (files : list string) (th : Z) (i : nat)
    (cur nxt : DataFrame) (f_cur f_next : string) (d : Timedelta)
    (limit : Z) :
  let last := series_max (col_anfang cur) in
  let first := series_min (col_anfang nxt) in
  ts_sub first last = Ok d →
  files !! i = Some f_cur → files !! (i + 1) = Some f_next →
  timedelta_hours th = Ok limit →
  gap_assertions files th i cur nxt
  = if td_le d limit
    then Logged (Ok tt) [WARNING (gap_warning_msg f_cur f_next last first)]
    else Logged (Raise (GapTooLarge th f_cur f_next)) [].
Proof.
  intros last first Hd Hc Hn Hl. unfold gap_assertions.
  fold last first. rewrite Hd, Hl.
  rewrite (getitem_Some _ _ _ Hc), (getitem_Some _ _ _ Hn).
  rewrite !logged_bind_lift_Ok.
  by destruct (td_le _ _).
Qed.

(** On a boundary it does not find overlapping the gap check raises or
    warns; it is never silent. *)
Lemma gap_assertions_not_silent (files : list string) (th : Z) (i : nat)
    (cur nxt : DataFrame) :
  gap_assertions files th i cur nxt ≠ Logged (Ok tt) [].
Proof.
  unfold gap_assertions.
  destruct (ts_sub _ _) as [d|]; [|discriminate].
  rewrite logged_bind_lift_Ok. unfold getitem.
  destruct (files !! i); [|discriminate].
  rewrite logged_bind_lift_Ok.
  destruct (files !! (i + 1)); [|discriminate].
  rewrite logged_bind_lift_Ok.
  destruct (timedelta_hours th); [|discriminate].
  rewrite logged_bind_lift_Ok.
  destruct (td_le _ _); simpl; discriminate.
Qed.

(** The gap check on the first [n] frames, on the frames from [k] on, and
    how the run over the whole list is made of the two. *)
Lemma gap_step_take (dfs : list DataFrame) (files : list string) (th : Z)
    (n j : nat) :
  j + 1 < n → gap_step (take n dfs) files th j tt = gap_step dfs files th j tt.
Proof.
  intros H. unfold gap_step, getitem. by rewrite !lookup_take_lt by lia.
Qed.

Lemma gap_step_drop (dfs : list DataFrame) (files : list string) (th : Z)
    (k j : nat) :
  gap_step (drop k dfs) (drop k files) th j tt
  = gap_step dfs files th (k + j) tt.
Proof.
  unfold gap_step, getitem. rewrite !lookup_drop.
  by replace (k + (j + 1)) with (k + j + 1) by lia.
Qed.

Lemma gap_take (dfs : list DataFrame) (files : list string) (th : Z)
    (n : nat) :
  n ≤ length dfs →
  assert_time_difference_in_bookings (take n dfs) files th
  = for_in_logged (range 0 (n - 1)) (gap_step dfs files th) tt.
Proof.
  intros H. unfold assert_time_difference_in_bookings.
  rewrite length_take_le by done.
  apply for_in_logged_ext. intros j [] Hj. apply in_range_0 in Hj.
  apply gap_step_take. lia.
Qed.

Lemma gap_drop (dfs : list DataFrame) (files : list string) (th : Z)
    (k : nat) :
  assert_time_difference_in_bookings (drop k dfs) (drop k files) th
  = for_in_logged (seq k (length dfs - 1 - k)) (gap_step dfs files th) tt.
Proof.
  unfold assert_time_difference_in_bookings, range.
  rewrite length_drop, Nat.sub_0_r.
  replace (length dfs - k - 1) with (length dfs - 1 - k) by lia.
  symmetry. apply for_in_logged_shift. intros j []. simpl.
  symmetry. apply gap_step_drop.
Qed.

Lemma gap_snoc (dfs : list DataFrame) (files : list string) (th : Z)
    (i : nat) :
  i + 1 < length dfs →
  assert_time_difference_in_bookings (take (i + 2) dfs) files th
  = (assert_time_difference_in_bookings (take (i + 1) dfs) files th
     ≫= λ _, gap_step dfs files th i tt).
Proof.
  intros H. rewrite !gap_take by lia.
  replace (i + 2 - 1) with (i + 1) by lia. replace (i + 1 - 1) with i by lia.
  rewrite (range_split i (i + 1)) by lia. replace (i + 1 - i) with 1 by lia.
  rewrite for_in_logged_app. simpl. unfold mbind, logged_bind.
  destruct (for_in_logged (range 0 i) _ ()) as [[[]|e] log]; [|done].
  destruct (gap_step dfs files th i ()) as [[[]|e] l]; [|done].
  simpl. by rewrite app_nil_r.
Qed.

Lemma gap_split (dfs : list DataFrame) (files : list string) (th : Z)
    (i : nat) :
  i + 1 < length dfs →
  assert_time_difference_in_bookings dfs files th
  = (assert_time_difference_in_bookings (take (i + 2) dfs) files th
     ≫= λ _, assert_time_difference_in_bookings (drop (i + 1) dfs)
               (drop (i + 1) files) th).
Proof.
  intros H. rewrite gap_take by lia. rewrite gap_drop.
  unfold assert_time_difference_in_bookings.
  rewrite (range_split (i + 2 - 1) (length dfs - 1)) by lia.
  rewrite for_in_logged_app.
  replace (i + 2 - 1) with (i + 1) by lia.
  unfold mbind, logged_bind.
  destruct (for_in_logged (range 0 (i + 1)) _ ()) as [[[]|e] log]; done.
Qed.

(** What one more boundary adds to a run that has passed so far. *)
Lemma gap_here (dfs : list DataFrame) (files : list string) (th : Z)
    (i : nat) (r : outcome unit) (l : list LogRecord) :
  i + 1 < length dfs →
  result (assert_time_difference_in_bookings (take (i + 1) dfs) files th)
    = Ok tt →
  gap_step dfs files th i tt = Logged r l →
  assert_time_difference_in_bookings (take (i + 2) dfs) files th
  = Logged r
      (records (assert_time_difference_in_bookings (take (i + 1) dfs)
                  files th) ++ l).
Proof.
  intros Hi Hb Hs. rewrite (gap_snoc dfs files th i Hi), Hs.
  unfold mbind, logged_bind.
  destruct (assert_time_difference_in_bookings (take (i + 1) dfs) files th)
    as [[[]|e] log]; simpl in *; [done | discriminate].
Qed.

Lemma gap_prefix_raise (dfs : list DataFrame) (files : list string) (th : Z)
    (i : nat) (e : exn) (log : list LogRecord) :
  i + 1 < length dfs →
  assert_time_difference_in_bookings (take (i + 2) dfs) files th
    = Logged (Raise e) log →
  assert_time_difference_in_bookings dfs files th = Logged (Raise e) log.
Proof. intros Hi H. by rewrite (gap_split dfs files th i Hi), H. Qed.

(** C4, as the code has it. Let the boundary between [A] (position [i])
    and [B] be gapped ([last < first]) by a gap that fits a [pd.Timedelta],
    let the threshold be one [datetime.timedelta] accepts, and let the gap
    validator pass every earlier boundary. Run up to and including this boundary, the
    validator raises GapTooLarge exactly when [first - last] is strictly
    greater than the threshold, and that error ends the run over the whole
    list; with the default of 6 hours a gap of 7 hours fails, and gaps of 5
    hours and of exactly 6 hours pass. Within the threshold it adds one
    warning that carries the two file names, [last] and [first], raises
    nothing, and the run over the whole list goes on with the boundaries
    that follow. *)
Theorem gap_check_verdict (dfs : list DataFrame) (files : list string)
    (th : Z) (i : nat) (A B : DataFrame) (f_cur f_next : string)
    (last first : Z) :
  dfs !! i = Some A → dfs !! (i + 1) = Some B →
  files !! i = Some f_cur → files !! (i + 1) = Some f_next →
  series_max (col_anfang A) = Some last →
  series_min (col_anfang B) = Some first →
  (last < first)%Z →
  (first - last ≤ int64_max)%Z →
  (timedelta_min_hours ≤ th ≤ timedelta_max_hours)%Z →
  result (assert_time_difference_in_bookings (take (i + 1) dfs) files th)
    = Ok tt →
  let gap := (first - last)%Z in
  let before :=
    records (assert_time_difference_in_bookings (take (i + 1) dfs) files th) in
  let here := assert_time_difference_in_bookings (take (i + 2) dfs) files th in
  let message := gap_warning_msg f_cur f_next (Some last) (Some first) in
  (result here = Raise (GapTooLarge th f_cur f_next)
   ↔ (gap > hours_ns th)%Z) ∧
  ((∃ e, result here = Raise e) ↔ (gap > hours_ns th)%Z) ∧
  ((gap > hours_ns th)%Z →
     assert_time_difference_in_bookings dfs files th
     = Logged (Raise (GapTooLarge th f_cur f_next)) before) ∧
  ((gap ≤ hours_ns th)%Z →
     here = Logged (Ok tt) (before ++ [WARNING message]) ∧
     In (FStr f_cur) message ∧ In (FStr f_next) message ∧
     In (FTs (Some last)) message ∧ In (FTs (Some first)) message ∧
     let rest := assert_time_difference_in_bookings (drop (i + 1) dfs)
                   (drop (i + 1) files) th in
     assert_time_difference_in_bookings dfs files th
     = Logged (result rest) (before ++ WARNING message :: records rest)) ∧
  (th = default_threshold_hours →
     (gap = hours_ns 7 → result here = Raise (GapTooLarge 6 f_cur f_next)) ∧
     (gap = hours_ns 5 → result here = Ok tt) ∧
     (gap = hours_ns 6 → result here = Ok tt)).
Proof.
  intros HA HB Hc Hn Hlast Hfirst Hlt Hfit Hth Hbefore gap before here
    message.
  assert (Hi : i + 1 < length dfs) by (by eapply lookup_lt_Some).
  assert (Hstep : gap_step dfs files th i tt
                  = if (gap <=? hours_ns th)%Z
                    then Logged (Ok tt) [WARNING message]
                    else Logged (Raise (GapTooLarge th f_cur f_next)) []).
  { rewrite (gap_step_classify dfs files th i A B HA HB).
    unfold classify. rewrite Hlast, Hfirst. simpl.
    rewrite (proj2 (Z.leb_gt _ _) Hlt).
    rewrite (gap_assertions_run files th i A B f_cur f_next
               (Some gap) (hours_ns th)); try done.
    - by rewrite Hlast, Hfirst.
    - rewrite Hlast, Hfirst. by apply ts_sub_gap.
    - by apply timedelta_hours_Ok. }
  assert (Hhere : here = if (gap <=? hours_ns th)%Z
                         then Logged (Ok tt) (before ++ [WARNING message])
                         else Logged (Raise (GapTooLarge th f_cur f_next))
                                (before ++ [])).
  { unfold here, before.
    destruct (gap <=? hours_ns th)%Z;
      by apply (gap_here dfs files th i _ _ Hi Hbefore). }
  rewrite app_nil_r in Hhere.
  split; [|split; [|split; [|split]]].
  - rewrite Hhere. destruct (Z.leb_spec gap (hours_ns th)); simpl.
    + split; [discriminate | lia].
    + split; [lia | done].
  - rewrite Hhere. destruct (Z.leb_spec gap (hours_ns th)); simpl.
    + split; [intros [e He]; discriminate | lia].
    + split; [lia | eauto].
  - intros Hgt. apply (gap_prefix_raise dfs files th i); [done|].
    fold here. rewrite Hhere.
    by rewrite (proj2 (Z.leb_gt gap (hours_ns th))) by lia.
  - intros Hle. rewrite (proj2 (Z.leb_le _ _) Hle) in Hhere.
    split; [exact Hhere|]. unfold message, gap_warning_msg.
    repeat (split; [simpl; tauto|]).
    rewrite (gap_split dfs files th i Hi). fold here. rewrite Hhere.
    unfold mbind, logged_bind.
    destruct (assert_time_difference_in_bookings (drop (i + 1) dfs)
                (drop (i + 1) files) th) as [r l].
    simpl. by rewrite <- app_assoc.
  - intros ->. rewrite Hhere. unfold default_threshold_hours, hours_ns.
    repeat split; intros Hgap; rewrite Hgap; reflexivity.
Qed.

(** C4 as stated fails outside the ranges of pandas and of
    [datetime.timedelta]. Two exports some 317 years apart are a Gapped
    boundary whose gap exceeds the default threshold, yet the run ends in
    [OutOfBoundsDatetime], raised by the subtraction, and not in
    GapTooLarge. And a gap of five hours, within a threshold of 10^11 hours,
    does not pass with a warning: the run ends in [OverflowError], raised by
    [datetime.timedelta]. *)
Lemma gap_verdict_outside_ranges :
  let last := (-5000000000000000000)%Z in
  let first := 5000000000000000000%Z in
  let wide :=
    assert_time_difference_in_bookings [Sample.frame_early; Sample.frame_late]
      ["early.csv"; "late.csv"] default_threshold_hours in
  let huge :=
    assert_time_difference_in_bookings [Sample.frame_c; Sample.frame_d]
      ["c.csv"; "d.csv"] 100000000000 in
  (series_max (col_anfang Sample.frame_early) = Some last ∧
   series_min (col_anfang Sample.frame_late) = Some first ∧
   (last < first)%Z ∧
   (first - last > hours_ns default_threshold_hours)%Z ∧
   wide = Logged (Raise out_of_bounds_datetime) [] ∧
   result wide
   ≠ Raise (GapTooLarge default_threshold_hours "early.csv" "late.csv")) ∧
  (series_max (col_anfang Sample.frame_c) = Some (12 * Sample.hour)%Z ∧
   series_min (col_anfang Sample.frame_d) = Some (17 * Sample.hour)%Z ∧
   (17 * Sample.hour - 12 * Sample.hour ≤ hours_ns 100000000000)%Z ∧
   huge
   = Logged (Raise (PyError "OverflowError"
                      "Python int too large to convert to C int")) [] ∧
   result huge ≠ Ok tt).
Proof. repeat split; vm_compute; congruence. Qed.

(** C5. Both validators branch on the same test, on every boundary they
    reach: a boundary is Overlapping exactly when
    [max(A.anfang) >= min(B.anfang)] and Gapped otherwise. On an Overlapping
    boundary the overlap validator passes exactly when the two windows
    agree, and the gap validator does nothing: its outcome and its log are
    those of the run before this boundary. On a Gapped boundary the overlap
    validator passes whatever the rows are, and the gap validator acts: it
    raises or logs a warning. Equality of the two timestamps is
    Overlapping. *)
Theorem boundary_routing (dfs : list DataFrame) (files : list string)
    (th : Z) (i : nat) (A B : DataFrame) :
  dfs !! i = Some A → dfs !! (i + 1) = Some B →
  verify_overlapping_bookings (take (i + 1) dfs) = Ok tt →
  result (assert_time_difference_in_bookings (take (i + 1) dfs) files th)
    = Ok tt →
  let last := series_max (col_anfang A) in
  let first := series_min (col_anfang B) in
  let overlapA := List.filter (λ r, ts_ge (anfang r) first) A in
  let overlapB := List.filter (λ r, ts_le (anfang r) last) B in
  let windows_agree :=
    length overlapA = length overlapB ∧
    (list_to_set (map fahrtneu_id overlapA) : gset Z)
    = list_to_set (map fahrtneu_id overlapB) in
  let overlap_here := verify_overlapping_bookings (take (i + 2) dfs) in
  let gap_before :=
    assert_time_difference_in_bookings (take (i + 1) dfs) files th in
  let gap_here :=
    assert_time_difference_in_bookings (take (i + 2) dfs) files th in
  (classify A B = Overlapping ↔ ts_ge last first = true) ∧
  (classify A B = Gapped ↔ ts_ge last first = false) ∧
  (∀ x y, last = Some x → first = Some y →
     (classify A B = Overlapping ↔ (y ≤ x)%Z)) ∧
  (ts_ge last first = true →
     (overlap_here = Ok tt ↔ windows_agree) ∧ gap_here = gap_before) ∧
  (ts_ge last first = false →
     overlap_here = Ok tt ∧ gap_here ≠ gap_before) ∧
  (∀ t, last = Some t → first = Some t →
     (overlap_here = Ok tt ↔ windows_agree) ∧ gap_here = gap_before).
Proof.
  intros HA HB Hvbefore Hgbefore last first overlapA overlapB windows_agree
    overlap_here gap_before gap_here.
  assert (Hi : i + 1 < length dfs) by (by eapply lookup_lt_Some).
  assert (Hoverlap : overlap_here
                     = match classify A B with
                       | Overlapping => overlap_assertions i A B
                       | Gapped => Ok tt
                       end).
  { unfold overlap_here. rewrite (verify_snoc dfs i Hi), Hvbefore.
    apply (verify_step_classify dfs i A B HA HB). }
  assert (Hgap : gap_here
                 = (gap_before ≫= λ _,
                      match classify A B with
                      | Overlapping => Logged (Ok tt) []
                      | Gapped => gap_assertions files th i A B
                      end)).
  { unfold gap_here, gap_before. rewrite (gap_snoc dfs files th i Hi).
    by rewrite (gap_step_classify dfs files th i A B HA HB). }
  assert (Hov : ts_ge last first = true →
            (overlap_here = Ok tt ↔ windows_agree) ∧ gap_here = gap_before).
  { intros Hge. unfold classify in Hoverlap, Hgap.
    fold last first in Hoverlap, Hgap. rewrite Hge in Hoverlap, Hgap.
    split.
    - rewrite Hoverlap.
      destruct (overlap_assertions_verdict i A B) as (_ & _ & Hok).
      exact Hok.
    - rewrite Hgap. apply logged_bind_ret_r. by intros []. }
  split; [|split; [|split; [|split; [exact Hov|split]]]].
  - unfold classify. fold last first. destruct (ts_ge last first); by split.
  - unfold classify. fold last first. destruct (ts_ge last first); by split.
  - intros x y Hx Hy. unfold classify. fold last first. rewrite Hx, Hy. simpl.
    destruct (Z.leb_spec y x); split; try done; lia.
  - intros Hge. unfold classify in Hoverlap, Hgap.
    fold last first in Hoverlap, Hgap. rewrite Hge in Hoverlap, Hgap.
    split; [exact Hoverlap|].
    rewrite Hgap. unfold mbind, logged_bind.
    fold gap_before in Hgbefore. clear Hgap Hov. clearbody gap_before.
    destruct gap_before as [[[]|e] log]; simpl in Hgbefore; [|discriminate].
    pose proof (gap_assertions_not_silent files th i A B) as Hns.
    destruct (gap_assertions files th i A B) as [r l].
    intros [= -> Hl]. apply Hns. f_equal.
    apply (app_inv_head log). by rewrite app_nil_r.
  - intros t Ht Hf. apply Hov. rewrite Ht, Hf. apply ts_ge_refl_Some.
Qed.

(** ** What the fatal errors carry *)

Lemma prefix_app (needle post : string) :
  String.prefix needle (needle +:+ post) = true.
Proof.
  induction needle as [|c needle IH]; simpl.
  - by destruct post.
  - destruct (Ascii.ascii_dec c c); [exact IH | done].
Qed.

Lemma contains_here (needle post : string) :
  contains (needle +:+ post) needle = true.
Proof.
  pose proof (prefix_app needle post) as H.
  destruct (needle +:+ post); cbn [contains]; by rewrite H.
Qed.

Lemma contains_later (pre hay needle : string) :
  contains hay needle = true → contains (pre +:+ hay) needle = true.
Proof.
  intros H. induction pre as [|c pre IH]; simpl; [done|].
  rewrite IH. apply orb_true_r.
Qed.

Lemma contains_end (needle : string) : contains needle needle = true.
Proof.
  pose proof (contains_here needle "") as H.
  assert (Hnil : needle +:+ "" = needle).
  { clear H. induction needle as [|c needle IH]; [done|].
    change (String c (needle +:+ "") = String c needle). by rewrite IH. }
  by rewrite Hnil in H.
Qed.

Lemma verify_step_raise (dfs : list DataFrame) (i : nat) (e : exn) :
  i + 1 < length dfs →
  verify_step dfs i tt = Raise e →
  ∃ A B, dfs !! i = Some A ∧ dfs !! (i + 1) = Some B ∧
         classify A B = Overlapping ∧
         (e = OverlapLengthMismatch i ∨ e = OverlapIdentityMismatch i).
Proof.
  intros Hi H.
  destruct (lookup_lt_is_Some_2 dfs i ltac:(lia)) as [A HA].
  destruct (lookup_lt_is_Some_2 dfs (i + 1) Hi) as [B HB].
  rewrite (verify_step_classify dfs i A B HA HB) in H.
  exists A, B. repeat split; try done.
  - destruct (classify A B); [done | discriminate].
  - destruct (classify A B); [|discriminate].
    unfold overlap_assertions in H.
    destruct (length _ =? length _); simpl in H.
    + destruct (bool_decide _); simpl in H; [discriminate|].
      right. unfold OverlapIdentityMismatch. congruence.
    + left. unfold OverlapLengthMismatch. congruence.
Qed.

Lemma ts_sub_Raise_inv (a b : Timestamp) (e : exn) :
  ts_sub a b = Raise e → e = out_of_bounds_datetime.
Proof.
  unfold ts_sub. destruct a as [x|], b as [y|]; try discriminate. cbv zeta.
  destruct (_ || _); [congruence|]. by destruct (_ =? _)%Z.
Qed.

Lemma timedelta_hours_Raise_inv (th : Z) (e : exn) :
  timedelta_hours th = Raise e → e = timedelta_overflow th.
Proof. unfold timedelta_hours. destruct (_ && _); congruence. Qed.

Lemma gap_step_raise (dfs : list DataFrame) (files : list string) (th : Z)
    (i : nat) (m : string) :
  result (gap_step dfs files th i tt) = Raise (AssertionError m) →
  ∃ A B f_cur f_next,
    dfs !! i = Some A ∧ dfs !! (i + 1) = Some B ∧ classify A B = Gapped ∧
    files !! i = Some f_cur ∧ files !! (i + 1) = Some f_next ∧
    m = gap_assert_msg th f_cur f_next.
Proof.
  intros H.
  destruct (dfs !! i) as [A|] eqn:HA.
  2: { unfold gap_step, getitem in H. rewrite HA in H. discriminate. }
  destruct (dfs !! (i + 1)) as [B|] eqn:HB.
  2: { unfold gap_step, getitem in H. rewrite HA, HB in H.
       rewrite logged_bind_lift_Ok in H. discriminate. }
  rewrite (gap_step_classify dfs files th i A B HA HB) in H.
  destruct (classify A B) eqn:Hc; [discriminate|].
  destruct (ts_sub (series_min (col_anfang B)) (series_max (col_anfang A)))
    as [d|e] eqn:Hd.
  2: { unfold gap_assertions in H. rewrite Hd in H.
       apply ts_sub_Raise_inv in Hd. subst e. discriminate. }
  destruct (files !! i) as [f_cur|] eqn:Hf.
  2: { unfold gap_assertions, getitem in H. rewrite Hd, Hf in H.
       rewrite logged_bind_lift_Ok in H. discriminate. }
  destruct (files !! (i + 1)) as [f_next|] eqn:Hg.
  2: { unfold gap_assertions, getitem in H. rewrite Hd, Hf, Hg in H.
       rewrite !logged_bind_lift_Ok in H. discriminate. }
  destruct (timedelta_hours th) as [limit|e] eqn:Hl.
  2: { unfold gap_assertions, getitem in H. rewrite Hd, Hf, Hg, Hl in H.
       rewrite !logged_bind_lift_Ok in H.
       apply timedelta_hours_Raise_inv in Hl. subst e. discriminate. }
  rewrite (gap_assertions_run files th i A B f_cur f_next d limit Hd Hf Hg Hl)
    in H.
  exists A, B, f_cur, f_next. repeat split; try done.
  destruct (td_le _ _); simpl in H; [discriminate|].
  unfold GapTooLarge in H. congruence.
Qed.

(** C8, as the code has it. An overlap error names the boundary by the
    positions [i] and [i+1] of the two record sets in the sorted list; only
    GapTooLarge names files, namely entries [i] and [i+1] of the file list
    the gap check was given, next to the threshold. *)
Theorem fatal_errors_carry :
  (∀ dfs e,
     verify_overlapping_bookings dfs = Raise e →
     ∃ i A B,
       dfs !! i = Some A ∧ dfs !! (i + 1) = Some B ∧
       classify A B = Overlapping ∧
       (e = OverlapLengthMismatch i ∨ e = OverlapIdentityMismatch i) ∧
       contains (exn_message e) (pretty i) = true ∧
       contains (exn_message e) (pretty (i + 1)) = true) ∧
  (∀ dfs files th m,
     result (assert_time_difference_in_bookings dfs files th)
       = Raise (AssertionError m) →
     ∃ i A B f_cur f_next,
       dfs !! i = Some A ∧ dfs !! (i + 1) = Some B ∧
       classify A B = Gapped ∧
       files !! i = Some f_cur ∧ files !! (i + 1) = Some f_next ∧
       AssertionError m = GapTooLarge th f_cur f_next ∧
       contains m f_cur = true ∧ contains m f_next = true ∧
       contains m (pretty th) = true).
Proof.
  split.
  - intros dfs e H. unfold verify_overlapping_bookings in H.
    apply for_in_unit_raise in H as (i & Hi & H).
    apply in_range_0 in Hi.
    destruct (verify_step_raise dfs i e ltac:(lia) H)
      as (A & B & HA & HB & Hc & He).
    exists i, A, B. repeat split; try done.
    + destruct He as [-> | ->];
        unfold OverlapLengthMismatch, OverlapIdentityMismatch;
        cbn [exn_message]; unfold assert_msg_len, assert_msg_id;
        apply contains_later, contains_here.
    + destruct He as [-> | ->];
        unfold OverlapLengthMismatch, OverlapIdentityMismatch;
        cbn [exn_message]; unfold assert_msg_len, assert_msg_id;
        do 3 apply contains_later; apply contains_end.
  - intros dfs files th m H. unfold assert_time_difference_in_bookings in H.
    apply for_in_logged_unit_raise in H as (i & _ & H).
    destruct (gap_step_raise dfs files th i m H)
      as (A & B & f_cur & f_next & HA & HB & Hc & Hf & Hg & ->).
    exists i, A, B, f_cur, f_next. repeat split; try done.
    + unfold gap_assert_msg. do 3 apply contains_later. apply contains_here.
    + unfold gap_assert_msg. do 5 apply contains_later. apply contains_end.
    + unfold gap_assert_msg. apply contains_later, contains_here.
Qed.

(** ** The loader *)

Section LoaderFacts.

Variable read_csv : string → string → string → outcome RawFrame.
Variable to_datetime : list string → outcome (list Timestamp).

(** The names come back in the caller's order, whatever that is. *)
Lemma load_returns_input_names (csv_files : list string)
    (encoding delimiter : string) (dfs : list DataFrame)
    (files : list string) :
  load_and_sort_fahrten_data read_csv to_datetime csv_files encoding
    delimiter = Ok (dfs, files) →
  files = csv_files.
Proof.
  unfold load_and_sort_fahrten_data.
  destruct (mapM _ (sorted csv_files)) as [raw_list|]; [|discriminate].
  simpl. destruct (mapM _ raw_list) as [df_list|]; [|discriminate].
  simpl. by intros [= _ <-].
Qed.

(** The sibling in [data.py] returns them sorted. *)
Lemma read_csvs_sorted_names (csv_files : list string)
    (dfs : list DataFrame) (files : list string) :
  read_csvs_sorted read_csv to_datetime csv_files = Ok (dfs, files) →
  files = sorted csv_files.
Proof.
  unfold read_csvs_sorted.
  destruct (mapM _ (sorted csv_files)) as [raw_list|]; [|discriminate].
  simpl. destruct (mapM _ raw_list) as [df_list|]; [|discriminate].
  simpl. by intros [= _ <-].
Qed.

(** C6. The entry point runs the overlap check over all boundaries, then
    the gap check over all boundaries, and only then the merger, each on
    the list of record sets the loader produced. An error of either check
    is the outcome of the whole run, and a merged set is returned only
    when both checks have passed on every boundary. The record sets are
    values here: what the merger receives is what the loader returned. *)
Theorem validation_precedes_merge (csv_files : list string)
    (encoding delimiter : string) (dfs : list DataFrame)
    (files : list string) :
  load_and_sort_fahrten_data read_csv to_datetime csv_files encoding
    delimiter = Ok (dfs, files) →
  let run := combine_and_verify_booking_data read_csv to_datetime csv_files
               encoding delimiter in
  let gap := assert_time_difference_in_bookings dfs files
               default_threshold_hours in
  (∀ e, verify_overlapping_bookings dfs = Raise e →
        run = Logged (Raise e) []) ∧
  (∀ e, verify_overlapping_bookings dfs = Ok tt →
        result gap = Raise e →
        run = Logged (Raise e) (records gap)) ∧
  (verify_overlapping_bookings dfs = Ok tt → result gap = Ok tt →
   run = Logged (merge_nonoverlapping_dfs (frames dfs)) (records gap)) ∧
  (∀ out, result run = Ok out →
          verify_overlapping_bookings dfs = Ok tt ∧
          result gap = Ok tt ∧
          merge_nonoverlapping_dfs (frames dfs) = Ok out ∧
          ∀ i, i + 1 < length dfs →
            verify_step dfs i tt = Ok tt ∧
            result (gap_step dfs files default_threshold_hours i tt)
            = Ok tt).
Proof.
  intros Hload run gap.
  assert (Hrun : run =
    match verify_overlapping_bookings dfs with
    | Raise e => Logged (Raise e) []
    | Ok _ =>
        match result gap with
        | Raise e => Logged (Raise e) (records gap)
        | Ok _ => Logged (merge_nonoverlapping_dfs (frames dfs))
                    (records gap)
        end
    end).
  { unfold run, combine_and_verify_booking_data. rewrite Hload.
    rewrite logged_bind_lift_Ok. cbn [fst snd].
    destruct (verify_overlapping_bookings dfs) as [[]|e]; [|done].
    rewrite logged_bind_lift_Ok. fold gap.
    unfold mbind, logged_bind, lift, frames.
    destruct gap as [[[]|e] log]; simpl; [|done].
    by rewrite app_nil_r. }
  rewrite Hrun. split; [|split; [|split]].
  - by intros e ->.
  - intros e -> He. by rewrite He.
  - intros -> Hg. by rewrite Hg.
  - intros out.
    destruct (verify_overlapping_bookings dfs) as [[]|e] eqn:Hv;
      [|discriminate].
    destruct (result gap) as [[]|e] eqn:Hg; [|discriminate].
    simpl. intros Hout. repeat split; try done.
    + by apply verify_passes_iff.
    + by apply (gap_passes_iff dfs files default_threshold_hours).
Qed.

End LoaderFacts.

(** C3, on the input [["d.csv"; "a.csv"]]: the frames come back in sorted
    order ([a.csv] first) but the names come back as given, so the first
    name returned is not the source of the first frame. [data.py]'s copy of
    the loader returns the sorted names. *)
Theorem loader_returns_unsorted_names :
  load_and_sort_fahrten_data Sample.read_csv Sample.to_datetime
    ["d.csv"; "a.csv"] "ISO-8859-1" ";"
  = Ok ([Sample.frame_a; Sample.frame_d], ["d.csv"; "a.csv"]) ∧
  sorted ["d.csv"; "a.csv"] = ["a.csv"; "d.csv"] ∧
  read_csvs_sorted Sample.read_csv Sample.to_datetime ["d.csv"; "a.csv"]
  = Ok ([Sample.frame_a; Sample.frame_d], ["a.csv"; "d.csv"]).
Proof. repeat split; vm_compute; reflexivity. Qed.

(** C8 as stated fails on the files [a.csv] and [b.csv]: the run ends in
    OverlapLengthMismatch, whose message gives the positions 0 and 1 and
    neither file name. *)
Lemma overlap_error_names_positions_only :
  let run := combine_and_verify_booking_data Sample.read_csv
               Sample.to_datetime ["a.csv"; "b.csv"] "ISO-8859-1" ";" in
  let message :=
    "The overlapping bookings have different lengths between files 0 and 1" in
  run = Logged (Raise (AssertionError message)) [] ∧
  AssertionError message = OverlapLengthMismatch 0 ∧
  contains message "a.csv" = false ∧
  contains message "b.csv" = false.
Proof. repeat split; vm_compute; reflexivity. Qed.

(** ** The theorems at the sample files *)

Import Sample.

Lemma overlap_check_verdict_witness :
  ts_ge (series_max (col_anfang frame_a)) (series_min (col_anfang frame_c))
    = true ∧
  verify_overlapping_bookings [frame_a; frame_c] = Ok tt ∧
  verify_overlapping_bookings [frame_a; frame_b]
    = Raise (OverlapLengthMismatch 0) ∧
  verify_overlapping_bookings [frame_a; frame_c; frame_b]
    = Raise (OverlapLengthMismatch 1).
Proof.
  split; [reflexivity|]. split; [|split].
  - destruct (overlap_check_verdict [frame_a; frame_c] 0 frame_a frame_c
                eq_refl eq_refl eq_refl eq_refl) as (_ & _ & Hpass & _).
    apply Hpass. split; vm_compute; reflexivity.
  - destruct (overlap_check_verdict [frame_a; frame_b] 0 frame_a frame_b
                eq_refl eq_refl eq_refl eq_refl) as (Hlen & _).
    apply Hlen. vm_compute. discriminate.
  - destruct (overlap_check_verdict [frame_a; frame_c; frame_b] 1 frame_c
                frame_b eq_refl eq_refl eq_refl)
      as (_ & _ & _ & Hfull & _).
    + vm_compute. reflexivity.
    + apply Hfull. vm_compute. discriminate.
Defined.

Lemma merge_follows_spec_witness :
  merge_nonoverlapping_dfs (frames [frame_a; frame_e])
    = Ok (frame_a ++ [row 12 4]) ∧
  count_occ Row_eq_dec (frame_a ++ [row 12 4]) (row 10 3) = 1.
Proof.
  destruct merge_follows_spec as (Hspec & _ & Hboundary).
  split; [by rewrite Hspec|].
  apply (Hboundary frame_a frame_e (row 10 3) (frame_a ++ [row 12 4])).
  - reflexivity.
  - reflexivity.
  - simpl. tauto.
  - reflexivity.
  - by rewrite Hspec.
Defined.

Lemma merge_selects_by_time_only_witness :
  merge_nonoverlapping_dfs (frames [frame_a; frame_f])
    = Ok (frame_a ++ [row 12 3]) ∧
  ¬ In (row 9 7) (frame_a ++ [row 12 3]) ∧
  In (row 12 3) (frame_a ++ [row 12 3]).
Proof.
  assert (Hout : merge_nonoverlapping_dfs (frames [frame_a; frame_f])
                 = Ok (frame_a ++ [row 12 3])) by reflexivity.
  destruct (merge_selects_by_time_only frame_a [frame_f] _ Hout)
    as [_ Hstep].
  split; [exact Hout|]. split.
  - destruct (Hstep 0 frame_f frame_a (row 9 7) eq_refl eq_refl)
      as [Hold _]; [simpl; tauto|].
    destruct (Hold eq_refl) as [_ Hlost]. apply Hlost.
    intros r' Hr'. simpl in Hr'.
    destruct Hr' as [<-|[<-|[<-|[]]]]; vm_compute; discriminate.
  - destruct (Hstep 0 frame_f frame_a (row 12 3) eq_refl eq_refl)
      as [_ Hnew]; [simpl; tauto|].
    apply (Hnew eq_refl).
Defined.

Lemma gap_check_verdict_witness :
  assert_time_difference_in_bookings [frame_c; frame_d] ["c.csv"; "d.csv"] 6
    = Logged (Ok tt)
        [WARNING (gap_warning_msg "c.csv" "d.csv"
                    (Some (12 * hour)%Z) (Some (17 * hour)%Z))] ∧
  assert_time_difference_in_bookings [frame_a; frame_d] ["a.csv"; "d.csv"] 6
    = Logged (Raise (GapTooLarge 6 "a.csv" "d.csv")) [].
Proof.
  split.
  - destruct (gap_check_verdict [frame_c; frame_d] ["c.csv"; "d.csv"] 6 0
                frame_c frame_d "c.csv" "d.csv" (12 * hour) (17 * hour)
                eq_refl eq_refl eq_refl eq_refl eq_refl eq_refl eq_refl)
      as (_ & _ & _ & Hok & _).
    + vm_compute. discriminate.
    + vm_compute. split; discriminate.
    + reflexivity.
    + apply Hok. vm_compute. discriminate.
  - destruct (gap_check_verdict [frame_a; frame_d] ["a.csv"; "d.csv"] 6 0
                frame_a frame_d "a.csv" "d.csv" (10 * hour) (17 * hour)
                eq_refl eq_refl eq_refl eq_refl eq_refl eq_refl eq_refl)
      as (_ & _ & Hraise & _).
    + vm_compute. discriminate.
    + vm_compute. split; discriminate.
    + reflexivity.
    + apply Hraise. vm_compute. reflexivity.
Defined.

Lemma boundary_routing_witness :
  assert_time_difference_in_bookings [frame_a; frame_e] ["a.csv"; "e.csv"] 6
    = Logged (Ok tt) [] ∧
  verify_overlapping_bookings [frame_c; frame_d] = Ok tt ∧
  assert_time_difference_in_bookings [frame_c; frame_d] ["c.csv"; "d.csv"] 6
    ≠ Logged (Ok tt) [].
Proof.
  split; [|split].
  - destruct (boundary_routing [frame_a; frame_e] ["a.csv"; "e.csv"] 6 0
                frame_a frame_e eq_refl eq_refl eq_refl eq_refl)
      as (_ & _ & _ & _ & _ & Heq).
    by destruct (Heq (10 * hour)%Z eq_refl eq_refl) as [_ Hsilent].
  - destruct (boundary_routing [frame_c; frame_d] ["c.csv"; "d.csv"] 6 0
                frame_c frame_d eq_refl eq_refl eq_refl eq_refl)
      as (_ & _ & _ & _ & Hgapped & _).
    by destruct (Hgapped eq_refl) as [Hpass _].
  - destruct (boundary_routing [frame_c; frame_d] ["c.csv"; "d.csv"] 6 0
                frame_c frame_d eq_refl eq_refl eq_refl eq_refl)
      as (_ & _ & _ & _ & Hgapped & _).
    by destruct (Hgapped eq_refl) as [_ Hacts].
Defined.

Lemma validation_precedes_merge_witness :
  combine_and_verify_booking_data read_csv to_datetime ["a.csv"; "b.csv"]
    "ISO-8859-1" ";"
  = Logged (Raise (OverlapLengthMismatch 0)) [] ∧
  combine_and_verify_booking_data read_csv to_datetime ["a.csv"; "d.csv"]
    "ISO-8859-1" ";"
  = Logged (Raise (GapTooLarge 6 "a.csv" "d.csv")) [].
Proof.
  split.
  - destruct (validation_precedes_merge read_csv to_datetime
                ["a.csv"; "b.csv"] "ISO-8859-1" ";" [frame_a; frame_b]
                ["a.csv"; "b.csv"] eq_refl) as (Hverify & _).
    apply Hverify. vm_compute. reflexivity.
  - destruct (validation_precedes_merge read_csv to_datetime
                ["a.csv"; "d.csv"] "ISO-8859-1" ";" [frame_a; frame_d]
                ["a.csv"; "d.csv"] eq_refl) as (_ & Hgap & _).
    apply (Hgap (GapTooLarge 6 "a.csv" "d.csv")); vm_compute; reflexivity.
Defined.

Lemma merge_rejects_malformed_witness :
  merge_nonoverlapping_dfs PyNone = Raise InvalidInput ∧
  merge_nonoverlapping_dfs (PyList [PyDataFrame frame_a; PyStr "b.csv"])
    = Raise InvalidInput ∧
  ∃ first later, frames [frame_a; frame_c] = frames (first :: later).
Proof.
  destruct merge_rejects_malformed as (Hreject & _ & Hok).
  split; [|split].
  - apply Hreject. intros dfs. discriminate.
  - apply Hreject. intros [|df [|df' dfs]]; discriminate.
  - apply (Hok (frames [frame_a; frame_c]) (frame_a ++ [row 12 4])).
    reflexivity.
Defined.

Lemma fatal_errors_carry_witness :
  (∃ i A B,
     [frame_a; frame_b] !! i = Some A ∧ [frame_a; frame_b] !! (i + 1) = Some B ∧
     classify A B = Overlapping ∧
     (OverlapLengthMismatch 0 = OverlapLengthMismatch i
      ∨ OverlapLengthMismatch 0 = OverlapIdentityMismatch i) ∧
     contains (exn_message (OverlapLengthMismatch 0)) (pretty i) = true ∧
     contains (exn_message (OverlapLengthMismatch 0)) (pretty (i + 1)) = true) ∧
  (∃ i A B f_cur f_next,
     [frame_a; frame_d] !! i = Some A ∧ [frame_a; frame_d] !! (i + 1) = Some B ∧
     classify A B = Gapped ∧
     ["a.csv"; "d.csv"] !! i = Some f_cur ∧
     ["a.csv"; "d.csv"] !! (i + 1) = Some f_next ∧
     AssertionError (gap_assert_msg 6 "a.csv" "d.csv")
       = GapTooLarge 6 f_cur f_next ∧
     contains (gap_assert_msg 6 "a.csv" "d.csv") f_cur = true ∧
     contains (gap_assert_msg 6 "a.csv" "d.csv") f_next = true ∧
     contains (gap_assert_msg 6 "a.csv" "d.csv") (pretty 6%Z) = true).
Proof.
  destruct fatal_errors_carry as [Hoverlap Hgap]. split.
  - apply (Hoverlap [frame_a; frame_b] (OverlapLengthMismatch 0)).
    vm_compute. reflexivity.
  - apply (Hgap [frame_a; frame_d] ["a.csv"; "d.csv"] 6%Z
             (gap_assert_msg 6 "a.csv" "d.csv")).
    vm_compute. reflexivity.
Defined.


(** * Further properties of the code *)

(** ** The copies in data.py *)

(** X1. [data.check_overlaps] and [csv_handler.verify_overlapping_bookings]
    give the same outcome on every list of frames. *)
Theorem check_overlaps_agrees (dfs : list DataFrame) :
  check_overlaps dfs = verify_overlapping_bookings dfs.
Proof.
  unfold check_overlaps, verify_overlapping_bookings.
  apply for_in_ext. intros i [] _.
  unfold check_overlaps_step, verify_step.
  destruct (getitem dfs i) as [cur|]; [|done].
  destruct (getitem dfs (i + 1)) as [nxt|]; [|done].
  cbn [mbind outcome_bind].
  destruct (ts_ge _ _); [|done].
  unfold assert_msg_len, assert_msg_id, assert_lazy, assert_.
  destruct (length _ =? length _); [|done].
  cbn [mbind outcome_bind]. by destruct (bool_decide _).
Qed.

(** X2. [data.check_overlaps_with_time] and
    [csv_handler.assert_time_difference_in_bookings] give the same outcome
    and the same log whenever the threshold is one [datetime.timedelta]
    accepts, or the file list is as long as the list of frames. The first
    evaluates the threshold before it builds its message, and builds it
    only when the assertion fails; the second builds the message first. With
    a threshold that is accepted, a file list that is too short still ends
    both in the same [IndexError]. *)
Theorem check_overlaps_with_time_agrees (dfs : list DataFrame)
    (files : list string) (th : Z) :
  (timedelta_min_hours ≤ th ≤ timedelta_max_hours)%Z
  ∨ length dfs ≤ length files →
  check_overlaps_with_time dfs files th
  = assert_time_difference_in_bookings dfs files th.
Proof.
  intros Hcase.
  unfold check_overlaps_with_time, assert_time_difference_in_bookings.
  apply for_in_logged_ext. intros i [] Hi. apply in_range_0 in Hi.
  unfold check_overlaps_with_time_step, gap_step.
  destruct (getitem dfs i) as [cur|]; [|done].
  rewrite !logged_bind_lift_Ok.
  destruct (getitem dfs (i + 1)) as [nxt|]; [|done].
  rewrite !logged_bind_lift_Ok.
  destruct (negb _); [|done].
  destruct (ts_sub _ _) as [d|]; [|done].
  rewrite !logged_bind_lift_Ok.
  unfold gap_assert_msg, assert_lazy, assert_.
  destruct (timedelta_hours th) as [limit|e] eqn:Hl.
  - rewrite !logged_bind_lift_Ok.
    destruct (getitem files i) as [f_cur|e].
    + destruct (getitem files (i + 1)) as [f_next|e].
      * rewrite !logged_bind_lift_Ok.
        destruct (td_le _ _); [|done].
        by rewrite !logged_bind_lift_Ok.
      * destruct (td_le _ _); [|done].
        by rewrite !logged_bind_lift_Ok.
    + by destruct (td_le _ _).
  - destruct Hcase as [Hth | Hlen].
    { rewrite (timedelta_hours_Ok th Hth) in Hl. discriminate. }
    unfold getitem.
    destruct (lookup_lt_is_Some_2 files i ltac:(lia)) as [f_cur ->].
    destruct (lookup_lt_is_Some_2 files (i + 1) ltac:(lia)) as [f_next ->].
    by rewrite !logged_bind_lift_Ok.
Qed.

(** ** Sorting file names *)

Lemma ascii_compare_refl (c : Ascii.ascii) : Ascii.compare c c = Eq.
Proof. unfold Ascii.compare. apply N.compare_refl. Qed.

Lemma ascii_compare_Lt_trans (a b c : Ascii.ascii) :
  Ascii.compare a b = Lt → Ascii.compare b c = Lt → Ascii.compare a c = Lt.
Proof.
  unfold Ascii.compare. rewrite !N.compare_lt_iff. apply N.lt_trans.
Qed.

Lemma string_compare_refl (s : string) : String.compare s s = Eq.
Proof.
  induction s as [|c s IH]; simpl; [done|]. by rewrite ascii_compare_refl.
Qed.

Lemma string_compare_not_Gt_trans (a b c : string) :
  String.compare a b ≠ Gt → String.compare b c ≠ Gt →
  String.compare a c ≠ Gt.
Proof.
  revert b c. induction a as [|x a IH]; intros [|y b] [|z c]; simpl;
    try done.
  destruct (Ascii.compare x y) eqn:Hxy; try done;
    destruct (Ascii.compare y z) eqn:Hyz; try done.
  - apply Ascii.compare_eq_iff in Hxy, Hyz. subst.
    rewrite ascii_compare_refl. apply IH.
  - apply Ascii.compare_eq_iff in Hxy. subst. by rewrite Hyz.
  - apply Ascii.compare_eq_iff in Hyz. subst. by rewrite Hxy.
  - by rewrite (ascii_compare_Lt_trans x y z).
Qed.

Lemma str_le_compare (a b : string) : str_le a b ↔ String.compare a b ≠ Gt.
Proof.
  unfold str_le, String.leb. destruct (String.compare a b); split; done.
Qed.

#[global] Instance str_le_refl : Reflexive str_le.
Proof. intros a. apply str_le_compare. by rewrite string_compare_refl. Qed.

#[global] Instance str_le_trans : Transitive str_le.
Proof.
  intros a b c. rewrite !str_le_compare. apply string_compare_not_Gt_trans.
Qed.

#[global] Instance str_le_total : Total str_le.
Proof. intros a b. apply String.leb_total. Qed.

#[global] Instance str_le_antisym : AntiSymm (=) str_le.
Proof. intros a b. apply String.leb_antisym. Qed.

Lemma sorted_StronglySorted (names : list string) :
  StronglySorted str_le (sorted names).
Proof. apply StronglySorted_merge_sort; apply _. Qed.

Lemma sorted_Permutation (names : list string) : sorted names ≡ₚ names.
Proof. apply merge_sort_Permutation. Qed.

Lemma sorted_perm_eq (l1 l2 : list string) : l1 ≡ₚ l2 → sorted l1 = sorted l2.
Proof.
  intros H. apply (StronglySorted_unique str_le);
    [apply sorted_StronglySorted .. |].
  by rewrite !sorted_Permutation.
Qed.

Lemma sorted_fixpoint (l : list string) :
  StronglySorted str_le l → sorted l = l.
Proof.
  intros H. apply (StronglySorted_unique str_le);
    [apply sorted_StronglySorted | done | apply sorted_Permutation].
Qed.

(** ** Mapping a fallible function over a list *)

Lemma mapM_outcome_cons {A B} (f : A → outcome B) (x : A) (l : list A) :
  mapM f (x :: l)
  = match f x with
    | Ok y => match mapM f l with
              | Ok k => Ok (y :: k)
              | Raise e => Raise e
              end
    | Raise e => Raise e
    end.
Proof. simpl. destruct (f x); [|done]. simpl. by destruct (mapM f l). Qed.

Lemma mapM_outcome_Ok {A B} (f : A → outcome B) (l : list A) (k : list B) :
  mapM f l = Ok k ↔ Forall2 (λ x y, f x = Ok y) l k.
Proof.
  revert k. induction l as [|x l IH]; intros k.
  - simpl. split.
    + intros [= <-]. constructor.
    + intros H. by inversion H.
  - rewrite mapM_outcome_cons. split.
    + destruct (f x) as [y|] eqn:Hx; [|done].
      destruct (mapM f l) as [k'|] eqn:Hl; [|done].
      intros [= <-]. constructor; [done|]. by apply IH.
    + intros H. inversion H as [|? y ? k' Hx Hl]; subst.
      rewrite Hx. apply IH in Hl. by rewrite Hl.
Qed.

Lemma mapM_outcome_Raise {A B} (f : A → outcome B) (l : list A) (e : exn) :
  mapM f l = Raise e
  ↔ ∃ pre x post, l = pre ++ x :: post ∧
      Forall (λ y, ∃ v, f y = Ok v) pre ∧ f x = Raise e.
Proof.
  induction l as [|x l IH].
  - simpl. split; [done|]. intros (pre & y & post & H & _).
    by destruct pre.
  - rewrite mapM_outcome_cons. split.
    + destruct (f x) as [y|e'] eqn:Hx.
      * destruct (mapM f l) as [k'|e'] eqn:Hl; [done|].
        intros [= ->]. destruct (proj1 IH eq_refl) as (pre & z & post & -> & Hpre & Hz).
        exists (x :: pre), z, post. repeat split; [|done].
        constructor; eauto.
      * intros [= ->]. exists [], x, l. repeat split; [constructor | done].
    + intros (pre & z & post & Heq & Hpre & Hz).
      destruct pre as [|p pre]; simpl in Heq; injection Heq as <- ->.
      * by rewrite Hz.
      * inversion Hpre as [|? ? [v Hv] Hpre']; subst. rewrite Hv.
        assert (Hl : mapM f (pre ++ z :: post) = Raise e)
          by (apply IH; eauto 10).
        by rewrite Hl.
Qed.

(** ** More on the loader *)

Section LoaderMore.

Variable read_csv : string → string → string → outcome RawFrame.
Variable to_datetime : list string → outcome (list Timestamp).

Lemma assemble_columns (ids : list Z) (a e fa fe : list Timestamp) :
  length a = length ids → length e = length ids →
  length fa = length ids → length fe = length ids →
  length (assemble ids a e fa fe) = length ids ∧
  map anfang (assemble ids a e fa fe) = a ∧
  map ende (assemble ids a e fa fe) = e ∧
  map fahrt_anfang (assemble ids a e fa fe) = fa ∧
  map fahrt_ende (assemble ids a e fa fe) = fe ∧
  map fahrtneu_id (assemble ids a e fa fe) = ids.
Proof.
  revert a e fa fe.
  induction ids as [|i ids IH]; intros [|x a] [|y e] [|z fa] [|w fe];
    simpl; try discriminate; try done.
  intros [= Ha] [= He] [= Hfa] [= Hfe].
  destruct (IH a e fa fe Ha He Hfa Hfe) as (H1 & H2 & H3 & H4 & H5 & H6).
  by rewrite H1, H2, H3, H4, H5, H6.
Qed.

Lemma raw_column_cases (df : RawFrame) (name : string)
    (cell : RawRow → string) :
  ((name ∈ raw_header df) ∧
   raw_column df name cell = Ok (map cell (raw_rows df)))
  ∨ ((name ∉ raw_header df) ∧
     raw_column df name cell
     = Raise (PyError "KeyError" ("'" +:+ name +:+ "'"))).
Proof.
  unfold raw_column. destruct (decide (name ∈ raw_header df)) as [H|H].
  - left. by rewrite bool_decide_eq_true_2.
  - right. by rewrite bool_decide_eq_false_2.
Qed.

(** X3. The loader converts the four time columns in the order [anfang],
    [ende], [fahrt_anfang], [fahrt_ende]. A frame without the column
    [anfang] ends in [KeyError] before anything is converted. When the
    conversion succeeds the file has all four columns, and each time column
    of the result is [pd.to_datetime] of the raw column, the identifiers
    untouched ([pd.to_datetime] returning a column over the same rows).
    When it fails, the error is the [KeyError] of a missing time column or
    an error [pd.to_datetime] raised on one of the four columns. *)
Theorem convert_columns_rows (df : RawFrame) :
  let rows := raw_rows df in
  ("anfang" ∉ raw_header df →
   convert_columns to_datetime df = Raise (PyError "KeyError" "'anfang'")) ∧
  (∀ out, convert_columns to_datetime df = Ok out →
     (∀ c, In c ["anfang"; "ende"; "fahrt_anfang"; "fahrt_ende"] →
           c ∈ raw_header df) ∧
     ∃ a e fa fe,
       to_datetime (map raw_anfang rows) = Ok a ∧
       to_datetime (map raw_ende rows) = Ok e ∧
       to_datetime (map raw_fahrt_anfang rows) = Ok fa ∧
       to_datetime (map raw_fahrt_ende rows) = Ok fe ∧
       (length a = length rows → length e = length rows →
        length fa = length rows → length fe = length rows →
        length out = length rows ∧
        col_anfang out = a ∧ map ende out = e ∧
        map fahrt_anfang out = fa ∧ map fahrt_ende out = fe ∧
        col_fahrtneu_id out = map raw_fahrtneu_id rows)) ∧
  (∀ err, convert_columns to_datetime df = Raise err →
     (∃ c, In c ["anfang"; "ende"; "fahrt_anfang"; "fahrt_ende"] ∧
           (c ∉ raw_header df) ∧
           err = PyError "KeyError" ("'" +:+ c +:+ "'"))
     ∨ (∃ cell,
          In cell [raw_anfang; raw_ende; raw_fahrt_anfang; raw_fahrt_ende] ∧
          to_datetime (map cell rows) = Raise err)).
Proof.
  intros rows. unfold convert_columns. fold rows.
  destruct (raw_column_cases df "anfang" raw_anfang) as [[K1 ->]|[K1 ->]];
    fold rows; cbn [mbind outcome_bind].
  2: { split; [done|]. split; [discriminate|].
       intros err [= <-]. left. exists "anfang". simpl. tauto. }
  split; [done|].
  destruct (to_datetime (map raw_anfang rows)) as [a|e1] eqn:Ha;
    cbn [mbind outcome_bind].
  2: { split; [discriminate|]. intros err [= <-]. right.
       exists raw_anfang. simpl. tauto. }
  destruct (raw_column_cases df "ende" raw_ende) as [[K2 ->]|[K2 ->]];
    fold rows; cbn [mbind outcome_bind].
  2: { split; [discriminate|].
       intros err [= <-]. left. exists "ende". simpl. tauto. }
  destruct (to_datetime (map raw_ende rows)) as [e|e1] eqn:He;
    cbn [mbind outcome_bind].
  2: { split; [discriminate|]. intros err [= <-]. right.
       exists raw_ende. simpl. tauto. }
  destruct (raw_column_cases df "fahrt_anfang" raw_fahrt_anfang)
    as [[K3 ->]|[K3 ->]]; fold rows; cbn [mbind outcome_bind].
  2: { split; [discriminate|].
       intros err [= <-]. left. exists "fahrt_anfang". simpl. tauto. }
  destruct (to_datetime (map raw_fahrt_anfang rows)) as [fa|e1] eqn:Hfa;
    cbn [mbind outcome_bind].
  2: { split; [discriminate|]. intros err [= <-]. right.
       exists raw_fahrt_anfang. simpl. tauto. }
  destruct (raw_column_cases df "fahrt_ende" raw_fahrt_ende)
    as [[K4 ->]|[K4 ->]]; fold rows; cbn [mbind outcome_bind].
  2: { split; [discriminate|].
       intros err [= <-]. left. exists "fahrt_ende". simpl. tauto. }
  destruct (to_datetime (map raw_fahrt_ende rows)) as [fe|e1] eqn:Hfe;
    cbn [mbind outcome_bind].
  2: { split; [discriminate|]. intros err [= <-]. right.
       exists raw_fahrt_ende. simpl. tauto. }
  split; [|discriminate].
  intros out [= <-]. split.
  - intros c Hc. simpl in Hc. destruct Hc as [<-|[<-|[<-|[<-|[]]]]]; done.
  - exists a, e, fa, fe. do 4 (split; [done|]).
    intros L1 L2 L3 L4.
    destruct (assemble_columns (map raw_fahrtneu_id rows) a e fa fe)
      as (H1 & H2 & H3 & H4 & H5 & H6); rewrite ?length_map; try done.
    rewrite length_map in H1. unfold col_anfang, col_fahrtneu_id.
    by repeat split.
Qed.

Lemma load_frames (csv_files : list string) (encoding delimiter : string)
    (dfs : list DataFrame) :
  (∃ files, load_and_sort_fahrten_data read_csv to_datetime csv_files
              encoding delimiter = Ok (dfs, files))
  ↔ Forall2 (loaded_from read_csv to_datetime encoding delimiter) (sorted csv_files) dfs.
Proof.
  unfold load_and_sort_fahrten_data. split.
  - intros [files H].
    destruct (mapM _ (sorted csv_files)) as [raw_list|] eqn:Hr; [|done].
    cbn [mbind outcome_bind] in H.
    destruct (mapM _ raw_list) as [df_list|] eqn:Hc; [|done].
    cbn [mbind outcome_bind] in H. injection H as <- <-.
    apply mapM_outcome_Ok in Hr, Hc. clear -Hr Hc.
    revert df_list Hc. induction Hr as [|f raw fs raws Hf _ IH];
      intros df_list Hc; inversion Hc; subst; constructor.
    + by exists raw.
    + by apply IH.
  - intros H. exists csv_files.
    assert (Hex : ∃ raw_list,
              Forall2 (λ f raw, read_csv f encoding delimiter = Ok raw)
                (sorted csv_files) raw_list ∧
              Forall2 (λ raw df, convert_columns to_datetime raw = Ok df)
                raw_list dfs).
    { clear -H. induction H as [|f df fs dfs' (raw & Hf & Hc) _ IH].
      - exists []. split; constructor.
      - destruct IH as (raws & Hr & Hcs). exists (raw :: raws).
        split; by constructor. }
    destruct Hex as (raw_list & Hr & Hc).
    apply mapM_outcome_Ok in Hr, Hc. rewrite Hr. cbn [mbind outcome_bind].
    rewrite Hc. done.
Qed.

(** X4. When the loader succeeds, the frames it returns are the files in
    ascending order of their names, each read and converted, one per name
    given; the loader succeeds exactly when every file reads and converts. *)
Theorem loader_frames_follow_sorted_names (csv_files : list string)
    (encoding delimiter : string) :
  StronglySorted str_le (sorted csv_files) ∧
  sorted csv_files ≡ₚ csv_files ∧
  (∀ dfs files,
     load_and_sort_fahrten_data read_csv to_datetime csv_files encoding
       delimiter = Ok (dfs, files) →
     Forall2 (loaded_from read_csv to_datetime encoding delimiter) (sorted csv_files) dfs ∧
     length dfs = length csv_files) ∧
  ((∀ f, In f csv_files → ∃ df, loaded_from read_csv to_datetime encoding delimiter f df) →
   ∃ dfs, load_and_sort_fahrten_data read_csv to_datetime csv_files encoding
            delimiter = Ok (dfs, csv_files)).
Proof.
  split; [apply sorted_StronglySorted|].
  split; [apply sorted_Permutation|]. split.
  - intros dfs files H.
    assert (HF : Forall2 (loaded_from read_csv to_datetime encoding delimiter) (sorted csv_files)
                   dfs) by (apply load_frames; eauto).
    split; [done|]. rewrite <- (Forall2_length _ _ _ HF).
    apply Permutation_length, sorted_Permutation.
  - intros Hall.
    assert (Hex : ∃ dfs, Forall2 (loaded_from read_csv to_datetime encoding delimiter)
                           (sorted csv_files) dfs).
    { assert (Hs : ∀ f, In f (sorted csv_files) →
                     ∃ df, loaded_from read_csv to_datetime encoding delimiter f df).
      { intros f Hf. apply Hall.
        apply list_elem_of_In. rewrite <- (sorted_Permutation csv_files).
        by apply list_elem_of_In. }
      clear Hall. induction (sorted csv_files) as [|f fs IH].
      - exists []. constructor.
      - destruct (Hs f (or_introl eq_refl)) as [df Hdf].
        destruct IH as [dfs Hdfs]; [intros g Hg; apply Hs; by right|].
        exists (df :: dfs). by constructor. }
    destruct Hex as [dfs Hdfs]. exists dfs.
    apply load_frames in Hdfs as [files Hload].
    rewrite Hload. f_equal. f_equal.
    by apply (load_returns_input_names read_csv to_datetime) in Hload.
Qed.

(** X5. The frames the loader returns, and the error it raises, do not
    depend on the order in which the caller lists the files; only the list
    of names handed back differs. *)
Theorem loader_order_independent (csv_files csv_files' : list string)
    (encoding delimiter : string) :
  csv_files ≡ₚ csv_files' →
  load_and_sort_fahrten_data read_csv to_datetime csv_files' encoding
    delimiter
  = match load_and_sort_fahrten_data read_csv to_datetime csv_files encoding
            delimiter with
    | Ok (dfs, _) => Ok (dfs, csv_files')
    | Raise e => Raise e
    end.
Proof.
  intros H. unfold load_and_sort_fahrten_data.
  rewrite (sorted_perm_eq csv_files csv_files' H).
  destruct (mapM _ (sorted csv_files')) as [raw_list|]; [|done].
  cbn [mbind outcome_bind]. by destruct (mapM _ raw_list).
Qed.

(** X6. With its default encoding and delimiter the loader of
    [csv_handler.py] returns the frames (or the error) of [data.py]'s
    [read_csvs_sorted]; the two differ in the names they hand back, and not
    at all when the caller's list is already in ascending order. *)
Theorem loader_vs_read_csvs_sorted (csv_files : list string) :
  load_and_sort_fahrten_data read_csv to_datetime csv_files "ISO-8859-1" ";"
  = match read_csvs_sorted read_csv to_datetime csv_files with
    | Ok (dfs, _) => Ok (dfs, csv_files)
    | Raise e => Raise e
    end ∧
  (StronglySorted str_le csv_files →
   load_and_sort_fahrten_data read_csv to_datetime csv_files "ISO-8859-1" ";"
   = read_csvs_sorted read_csv to_datetime csv_files).
Proof.
  unfold load_and_sort_fahrten_data, read_csvs_sorted. split.
  - destruct (mapM _ (sorted csv_files)) as [raw_list|]; [|done].
    cbn [mbind outcome_bind]. by destruct (mapM _ raw_list).
  - intros Hs. by rewrite (sorted_fixpoint csv_files Hs).
Qed.

(** X7. All files are read before any is converted: if some file cannot be
    read, the loader raises the error of the first such file in ascending
    order of names, whatever the contents of the files before it. *)
Theorem loader_read_error_first (csv_files : list string)
    (encoding delimiter : string) (pre post : list string) (f : string)
    (e : exn) :
  sorted csv_files = pre ++ f :: post →
  Forall (λ g, ∃ raw, read_csv g encoding delimiter = Ok raw) pre →
  read_csv f encoding delimiter = Raise e →
  load_and_sort_fahrten_data read_csv to_datetime csv_files encoding
    delimiter = Raise e.
Proof.
  intros Hs Hpre Hf. unfold load_and_sort_fahrten_data.
  assert (H : mapM (λ g, read_csv g encoding delimiter) (sorted csv_files)
              = Raise e).
  { apply mapM_outcome_Raise. exists pre, f, post. done. }
  by rewrite H.
Qed.

End LoaderMore.

(** ** More on the two checks *)

(** X8. A list with fewer than two frames has no boundary: both checks pass
    and nothing is logged, whatever file list and threshold are given. *)
Theorem no_boundary_no_check (dfs : list DataFrame) :
  length dfs ≤ 1 →
  verify_overlapping_bookings dfs = Ok tt ∧
  ∀ files th,
    assert_time_difference_in_bookings dfs files th = Logged (Ok tt) [].
Proof.
  intros H.
  unfold verify_overlapping_bookings, assert_time_difference_in_bookings.
  assert (Hr : range 0 (length dfs - 1) = []).
  { unfold range. by replace (length dfs - 1 - 0) with 0 by lia. }
  rewrite Hr. done.
Qed.

(** An exception at a boundary, after a run that has passed so far, ends
    the run over the whole list. *)
Lemma gap_raise_at (dfs : list DataFrame) (files : list string) (th : Z)
    (i : nat) (e : exn) :
  i + 1 < length dfs →
  result (assert_time_difference_in_bookings (take (i + 1) dfs) files th)
    = Ok tt →
  gap_step dfs files th i tt = Logged (Raise e) [] →
  assert_time_difference_in_bookings dfs files th
  = Logged (Raise e)
      (records (assert_time_difference_in_bookings (take (i + 1) dfs)
                  files th)).
Proof.
  intros Hi Hb Hs. apply (gap_prefix_raise dfs files th i _ _ Hi).
  rewrite (gap_here dfs files th i _ _ Hi Hb Hs). by rewrite app_nil_r.
Qed.

(** X9. A frame without any timestamp, an empty export for one, makes the
    boundary on either side of it Gapped with an undefined gap. If both
    validators have passed every earlier boundary, the overlap validator
    passes this one too, and the gap validator, given the two file names
    and a threshold [datetime.timedelta] accepts, ends the whole run in
    GapTooLarge, however large that threshold is. *)
Theorem empty_frame_fails_gap_check (dfs : list DataFrame)
    (files : list string) (th : Z) (i : nat) (A B : DataFrame)
    (f_cur f_next : string) :
  dfs !! i = Some A → dfs !! (i + 1) = Some B →
  series_max (col_anfang A) = NaT ∨ series_min (col_anfang B) = NaT →
  verify_overlapping_bookings (take (i + 1) dfs) = Ok tt →
  result (assert_time_difference_in_bookings (take (i + 1) dfs) files th)
    = Ok tt →
  files !! i = Some f_cur → files !! (i + 1) = Some f_next →
  (timedelta_min_hours ≤ th ≤ timedelta_max_hours)%Z →
  verify_overlapping_bookings (take (i + 2) dfs) = Ok tt ∧
  assert_time_difference_in_bookings dfs files th
  = Logged (Raise (GapTooLarge th f_cur f_next))
      (records (assert_time_difference_in_bookings (take (i + 1) dfs)
                  files th)).
Proof.
  intros HA HB HNaT Hv Hg Hf Hn Hth.
  assert (Hi : i + 1 < length dfs) by (by eapply lookup_lt_Some).
  assert (Hc : classify A B = Gapped).
  { unfold classify.
    destruct HNaT as [-> | ->]; [|done].
    by destruct (series_min (col_anfang B)). }
  split.
  - rewrite (verify_snoc dfs i Hi), Hv.
    by rewrite (verify_step_classify dfs i A B HA HB), Hc.
  - apply (gap_raise_at dfs files th i _ Hi Hg).
    rewrite (gap_step_classify dfs files th i A B HA HB), Hc.
    rewrite (gap_assertions_run files th i A B f_cur f_next None
               (hours_ns th)); try done.
    + destruct HNaT as [-> | ->]; [|done].
      by destruct (series_min (col_anfang B)).
    + by apply timedelta_hours_Ok.
Qed.

(** X10. On a Gapped boundary whose gap pandas can represent, the gap
    validator looks up both file names before it evaluates the threshold:
    with a file list too short for the boundary the whole run ends in
    [IndexError], for every threshold and however small the gap. *)
Theorem gap_check_needs_file_names (dfs : list DataFrame)
    (files : list string) (th : Z) (i : nat) (A B : DataFrame) :
  dfs !! i = Some A → dfs !! (i + 1) = Some B →
  classify A B = Gapped →
  (∀ first last,
     series_min (col_anfang B) = Some first →
     series_max (col_anfang A) = Some last →
     (first - last ≤ int64_max)%Z) →
  length files ≤ i + 1 →
  result (assert_time_difference_in_bookings (take (i + 1) dfs) files th)
    = Ok tt →
  assert_time_difference_in_bookings dfs files th
  = Logged (Raise (IndexError "list index out of range"))
      (records (assert_time_difference_in_bookings (take (i + 1) dfs)
                  files th)).
Proof.
  intros HA HB Hc Hfit Hlen Hg.
  assert (Hi : i + 1 < length dfs) by (by eapply lookup_lt_Some).
  apply (gap_raise_at dfs files th i _ Hi Hg).
  rewrite (gap_step_classify dfs files th i A B HA HB), Hc.
  assert (Hd : ∃ d, ts_sub (series_min (col_anfang B))
                      (series_max (col_anfang A)) = Ok d).
  { unfold classify in Hc.
    destruct (series_min (col_anfang B)) as [first|] eqn:Hfirst;
      [|by eexists].
    destruct (series_max (col_anfang A)) as [last|] eqn:Hlast;
      [|by eexists].
    simpl in Hc. destruct (Z.leb_spec first last); [done|].
    exists (Some (first - last)%Z). apply ts_sub_gap; [done|].
    by apply Hfit. }
  destruct Hd as [d Hd]. unfold gap_assertions. rewrite Hd.
  rewrite logged_bind_lift_Ok. unfold getitem.
  destruct (files !! i) as [f_cur|]; [|done].
  rewrite logged_bind_lift_Ok.
  by rewrite (lookup_ge_None_2 files (i + 1)) by lia.
Qed.

Lemma gap_step_result_Ok (dfs : list DataFrame) (files : list string)
    (th : Z) (i : nat) :
  result (gap_step dfs files th i tt) = Ok tt →
  (gapped_at dfs i = false ∧ gap_step dfs files th i tt = Logged (Ok tt) [])
  ∨ (∃ A B f_cur f_next d,
       dfs !! i = Some A ∧ dfs !! (i + 1) = Some B ∧
       gapped_at dfs i = true ∧
       ts_sub (series_min (col_anfang B)) (series_max (col_anfang A))
         = Ok d ∧
       files !! i = Some f_cur ∧ files !! (i + 1) = Some f_next ∧
       (timedelta_min_hours ≤ th ≤ timedelta_max_hours)%Z ∧
       td_le d (hours_ns th) = true ∧
       gap_step dfs files th i tt
       = Logged (Ok tt)
           [WARNING (gap_warning_msg f_cur f_next
                       (series_max (col_anfang A))
                       (series_min (col_anfang B)))]).
Proof.
  intros H. unfold gapped_at.
  destruct (dfs !! i) as [A|] eqn:HA.
  2: { unfold gap_step, getitem in H. rewrite HA in H. discriminate. }
  destruct (dfs !! (i + 1)) as [B|] eqn:HB.
  2: { unfold gap_step, getitem in H. rewrite HA, HB in H.
       rewrite logged_bind_lift_Ok in H. discriminate. }
  rewrite (gap_step_classify dfs files th i A B HA HB) in H |- *.
  unfold classify in *.
  destruct (ts_ge _ _) eqn:Hge; simpl; [by left|]. right.
  destruct (ts_sub (series_min (col_anfang B)) (series_max (col_anfang A)))
    as [d|e] eqn:Hd.
  2: { unfold gap_assertions in H. rewrite Hd in H. discriminate. }
  destruct (files !! i) as [f_cur|] eqn:Hf.
  2: { unfold gap_assertions, getitem in H. rewrite Hd, Hf in H.
       rewrite logged_bind_lift_Ok in H. discriminate. }
  destruct (files !! (i + 1)) as [f_next|] eqn:Hn.
  2: { unfold gap_assertions, getitem in H. rewrite Hd, Hf, Hn in H.
       rewrite !logged_bind_lift_Ok in H. discriminate. }
  destruct (timedelta_hours th) as [limit|e] eqn:Hl.
  2: { unfold gap_assertions, getitem in H. rewrite Hd, Hf, Hn, Hl in H.
       rewrite !logged_bind_lift_Ok in H. discriminate. }
  rewrite (gap_assertions_run files th i A B f_cur f_next d limit Hd Hf Hn Hl)
    in H |- *.
  apply timedelta_hours_inv in Hl as [-> Hth].
  exists A, B, f_cur, f_next, d.
  destruct (td_le _ _); [done | discriminate].
Qed.

Lemma hours_ns_mono (th th' : Z) :
  (th ≤ th')%Z → (hours_ns th ≤ hours_ns th')%Z.
Proof. unfold hours_ns. lia. Qed.

Lemma gap_step_threshold_mono (dfs : list DataFrame) (files : list string)
    (th th' : Z) (i : nat) :
  (th ≤ th')%Z → (th' ≤ timedelta_max_hours)%Z →
  result (gap_step dfs files th i tt) = Ok tt →
  gap_step dfs files th' i tt = gap_step dfs files th i tt.
Proof.
  intros Hth Hmax H.
  destruct (gap_step_result_Ok dfs files th i H)
    as [[Hg ->] | (A & B & f_cur & f_next & d & HA & HB & Hg & Hd & Hf & Hn
                   & Hrange & Htd & ->)].
  - unfold gapped_at in Hg.
    destruct (dfs !! i) as [A|] eqn:HA.
    2: { unfold gap_step, getitem in H. rewrite HA in H. discriminate. }
    destruct (dfs !! (i + 1)) as [B|] eqn:HB.
    2: { unfold gap_step, getitem in H. rewrite HA, HB in H.
         rewrite logged_bind_lift_Ok in H. discriminate. }
    rewrite (gap_step_classify dfs files th' i A B HA HB). unfold classify.
    apply negb_false_iff in Hg. by rewrite Hg.
  - unfold gapped_at in Hg. rewrite HA, HB in Hg.
    apply negb_true_iff in Hg.
    rewrite (gap_step_classify dfs files th' i A B HA HB). unfold classify.
    rewrite Hg.
    rewrite (gap_assertions_run files th' i A B f_cur f_next d
               (hours_ns th') Hd Hf Hn).
    2: { apply timedelta_hours_Ok. lia. }
    assert (Htd' : td_le d (hours_ns th') = true).
    { destruct d as [x|]; simpl in *; [|done].
      apply Z.leb_le in Htd. apply Z.leb_le.
      pose proof (hours_ns_mono th th' Hth). lia. }
    by rewrite Htd'.
Qed.

(** X11. Raising the threshold, within what [datetime.timedelta] accepts,
    never turns a pass into a failure: a list the gap validator accepts at
    [th] it accepts at every larger such threshold, with the same
    warnings. *)
Theorem gap_check_threshold_monotone (dfs : list DataFrame)
    (files : list string) (th th' : Z) :
  (th ≤ th')%Z → (th' ≤ timedelta_max_hours)%Z →
  result (assert_time_difference_in_bookings dfs files th) = Ok tt →
  assert_time_difference_in_bookings dfs files th'
  = assert_time_difference_in_bookings dfs files th.
Proof.
  intros Hth Hmax H. unfold assert_time_difference_in_bookings in *.
  apply for_in_logged_ext. intros i [] Hi.
  apply gap_step_threshold_mono; [done..|].
  by apply (proj1 (for_in_logged_unit_ok _ _) H).
Qed.

(** X22. What the gap validator does outside the ranges of pandas and of
    [datetime.timedelta], on a Gapped boundary that a passing run reaches: a
    gap too wide for a [pd.Timedelta] ends the whole run in
    [OutOfBoundsDatetime], before file names or threshold are looked at;
    otherwise, with both file names present, a threshold that
    [datetime.timedelta] rejects ends it in [OverflowError]. *)
Theorem gap_check_out_of_range (dfs : list DataFrame) (files : list string)
    (th : Z) (i : nat) (A B : DataFrame) (last first : Z) :
  dfs !! i = Some A → dfs !! (i + 1) = Some B →
  series_max (col_anfang A) = Some last →
  series_min (col_anfang B) = Some first →
  (last < first)%Z →
  result (assert_time_difference_in_bookings (take (i + 1) dfs) files th)
    = Ok tt →
  let before :=
    records (assert_time_difference_in_bookings (take (i + 1) dfs) files th) in
  ((int64_max < first - last)%Z →
   assert_time_difference_in_bookings dfs files th
   = Logged (Raise out_of_bounds_datetime) before) ∧
  ((first - last ≤ int64_max)%Z → i + 1 < length files →
   ¬ (timedelta_min_hours ≤ th ≤ timedelta_max_hours)%Z →
   assert_time_difference_in_bookings dfs files th
   = Logged (Raise (timedelta_overflow th)) before).
Proof.
  intros HA HB Hlast Hfirst Hlt Hg before.
  assert (Hi : i + 1 < length dfs) by (by eapply lookup_lt_Some).
  assert (Hc : classify A B = Gapped).
  { unfold classify. rewrite Hlast, Hfirst. simpl.
    by rewrite (proj2 (Z.leb_gt _ _) Hlt). }
  split.
  - intros Hwide. apply (gap_raise_at dfs files th i _ Hi Hg).
    rewrite (gap_step_classify dfs files th i A B HA HB), Hc.
    unfold gap_assertions. rewrite Hlast, Hfirst.
    by rewrite (ts_sub_too_large first last Hwide).
  - intros Hfit Hfiles Hth. apply (gap_raise_at dfs files th i _ Hi Hg).
    rewrite (gap_step_classify dfs files th i A B HA HB), Hc.
    unfold gap_assertions. rewrite Hlast, Hfirst.
    rewrite (ts_sub_gap first last Hlt Hfit), logged_bind_lift_Ok.
    unfold getitem.
    destruct (lookup_lt_is_Some_2 files i ltac:(lia)) as [f_cur ->].
    destruct (lookup_lt_is_Some_2 files (i + 1) Hfiles) as [f_next ->].
    rewrite !logged_bind_lift_Ok.
    by rewrite (timedelta_hours_Raise th Hth).
Qed.

Lemma gap_loop_records (dfs : list DataFrame) (files : list string) (th : Z)
    (idx : list nat) :
  result (for_in_logged idx (gap_step dfs files th) tt) = Ok tt →
  length (records (for_in_logged idx (gap_step dfs files th) tt))
  = length (List.filter (gapped_at dfs) idx).
Proof.
  induction idx as [|i idx IH]; [done|].
  intros H.
  pose proof (proj1 (for_in_logged_unit_ok _ _) H) as Hall.
  assert (Hi : result (gap_step dfs files th i tt) = Ok tt)
    by (apply Hall; by left).
  assert (Hrest : result (for_in_logged idx (gap_step dfs files th) tt)
                  = Ok tt).
  { apply for_in_logged_unit_ok. intros j Hj. apply Hall. by right. }
  specialize (IH Hrest). simpl. unfold mbind, logged_bind.
  destruct (gap_step_result_Ok dfs files th i Hi)
    as [[Hg ->] | (A & B & f_cur & f_next & d & _ & _ & Hg & _ & _ & _ & _
                   & _ & ->)];
    rewrite Hg;
    destruct (for_in_logged idx (gap_step dfs files th) ()) as [r log];
    simpl in *; by rewrite IH.
Qed.

(** X12. When the gap check passes, its log holds exactly one warning for
    each boundary that fails the test [last >= first], and nothing else. *)
Theorem gap_check_one_warning_per_gap (dfs : list DataFrame)
    (files : list string) (th : Z) :
  result (assert_time_difference_in_bookings dfs files th) = Ok tt →
  length (records (assert_time_difference_in_bookings dfs files th))
  = length (List.filter (gapped_at dfs) (range 0 (length dfs - 1))).
Proof. apply gap_loop_records. Qed.

(** ** More on the merger *)

Lemma series_max_ge (s : list Timestamp) (x : Z) :
  In (Some x) s → ∃ m, series_max s = Some m ∧ (x ≤ m)%Z.
Proof.
  unfold series_max. induction s as [|t s IH]; [done|].
  intros [-> | Hin]; simpl.
  - destruct (foldr ts_max2 NaT s) as [m|]; eexists; split; try done; lia.
  - destruct (IH Hin) as (m & -> & Hm).
    destruct t as [y|]; simpl; eexists; split; try done; lia.
Qed.

Lemma series_min_le (s : list Timestamp) (x : Z) :
  In (Some x) s → ∃ m, series_min s = Some m ∧ (m ≤ x)%Z.
Proof.
  unfold series_min. induction s as [|t s IH]; [done|].
  intros [-> | Hin]; simpl.
  - destruct (foldr ts_min2 NaT s) as [m|]; eexists; split; try done; lia.
  - destruct (IH Hin) as (m & -> & Hm).
    destruct t as [y|]; simpl; eexists; split; try done; lia.
Qed.

Lemma row_below_max (df : DataFrame) (r : Row) :
  In r df → ts_gt (anfang r) (series_max (col_anfang df)) = false.
Proof.
  intros Hr. destruct (anfang r) as [x|] eqn:Hx.
  - destruct (series_max_ge (col_anfang df) x) as (m & -> & Hm).
    { rewrite <- Hx. by apply in_map. }
    simpl. apply Z.ltb_ge. lia.
  - by destruct (series_max (col_anfang df)).
Qed.

Lemma select_gt_nil_iff (df : DataFrame) (t : Timestamp) :
  select_gt df t = [] ↔ ∀ r, In r df → ts_gt (anfang r) t = false.
Proof.
  unfold select_gt. induction df as [|r df IH]; simpl.
  - split; [intros _ r [] | done].
  - destruct (ts_gt (anfang r) t) eqn:Hr.
    + split; [done|]. intros H. specialize (H r (or_introl eq_refl)).
      congruence.
    + rewrite IH. split.
      * intros H r' [<-|Hr']; [done | by apply H].
      * intros H r' Hr'. apply H. by right.
Qed.

Lemma select_gt_all_iff (df : DataFrame) (t : Timestamp) :
  (∀ r, In r df → ts_gt (anfang r) t = true) → select_gt df t = df.
Proof.
  unfold select_gt. induction df as [|r df IH]; simpl; [done|].
  intros H. rewrite (H r (or_introl eq_refl)). f_equal.
  apply IH. intros r' Hr'. apply H. by right.
Qed.

Lemma filter_sublist_of {A} (f : A → bool) (l : list A) :
  sublist (List.filter f l) l.
Proof.
  induction l as [|x l IH]; simpl; [constructor|].
  destruct (f x); by constructor.
Qed.

Lemma merger_spec_NaT (later : list DataFrame) (merged : DataFrame) :
  series_max (col_anfang merged) = NaT → merger_spec merged later = merged.
Proof.
  intros H. induction later as [|df later IH]; simpl; [done|].
  rewrite H. fold (select_gt df NaT). by rewrite select_gt_NaT, app_nil_r.
Qed.

(** X13. If the first frame has no timestamp at all, an empty export for
    one, the merger returns that frame alone: every row of every later
    frame is dropped. *)
Theorem merge_empty_first (first : DataFrame) (later : list DataFrame) :
  series_max (col_anfang first) = NaT →
  merge_nonoverlapping_dfs (frames (first :: later)) = Ok first.
Proof. intros H. by rewrite merge_frames, merger_spec_NaT. Qed.

Lemma merger_spec_shape (later : list DataFrame) (merged : DataFrame) :
  ∃ kept, merger_spec merged later = merged ++ concat kept ∧
          Forall2 sublist kept later.
Proof.
  revert merged. induction later as [|df later IH]; intros merged; simpl.
  - exists []. split; [by rewrite app_nil_r | constructor].
  - destruct (IH (merged ++ List.filter
        (λ r, ts_gt (anfang r) (series_max (col_anfang merged))) df))
      as (kept & -> & Hk).
    eexists (_ :: kept). split.
    + simpl. by rewrite <- app_assoc.
    + constructor; [apply filter_sublist_of | done].
Qed.

(** X14. The merged frame is the first frame followed, frame by frame and
    in list order, by a subsequence of each later frame: rows are never
    reordered within a file, never altered and never invented, and the
    output is at most as long as all inputs together. *)
Theorem merge_output_shape (first : DataFrame) (later : list DataFrame) :
  ∃ kept,
    merge_nonoverlapping_dfs (frames (first :: later))
      = Ok (first ++ concat kept) ∧
    Forall2 sublist kept later ∧
    length (first ++ concat kept) ≤ length first + length (concat later).
Proof.
  destruct (merger_spec_shape later first) as (kept & Heq & Hk).
  exists kept. rewrite merge_frames, Heq. repeat split; [done|].
  rewrite length_app. apply Nat.add_le_mono_l.
  clear Heq. induction Hk as [|k df ks dfs Hs _ IH]; simpl; [done|].
  rewrite !length_app. apply sublist_length in Hs. lia.
Qed.

Lemma merger_spec_added_newer (later : list DataFrame) (merged : DataFrame) :
  ∃ added, merger_spec merged later = merged ++ added ∧
    Forall (λ r, ts_gt (anfang r) (series_max (col_anfang merged)) = true)
      added.
Proof.
  revert merged. induction later as [|df later IH]; intros merged; simpl.
  - exists []. split; [by rewrite app_nil_r | constructor].
  - fold (select_gt df (series_max (col_anfang merged))).
    destruct (IH (merged ++ select_gt df (series_max (col_anfang merged))))
      as (added & -> & Hadded).
    exists (select_gt df (series_max (col_anfang merged)) ++ added).
    split; [by rewrite <- app_assoc|].
    apply Forall_app. split.
    + apply Forall_forall. intros r Hr. apply list_elem_of_In in Hr.
      by apply select_gt_In in Hr as [_ Hr].
    + eapply Forall_impl; [exact Hadded|]. intros r Hr. simpl in Hr.
      destruct (ts_gt (anfang r) (series_max (col_anfang merged))) eqn:Hgt;
        [done|].
      apply (running_max_grows merged df) in Hgt. simpl in Hgt. congruence.
Qed.

(** X15. Whatever the merger appends after the first [k+1] frames is
    strictly newer than everything merged from them: every row that follows
    in the output has an [anfang] above the running maximum, hence above
    the [anfang] of each earlier row. *)
Theorem merge_appended_newer (first : DataFrame) (later : list DataFrame)
    (k : nat) (master : DataFrame) :
  merge_nonoverlapping_dfs (frames (first :: take k later)) = Ok master →
  ∃ tail,
    merge_nonoverlapping_dfs (frames (first :: later)) = Ok (master ++ tail) ∧
    ∀ r, In r tail →
      ts_gt (anfang r) (series_max (col_anfang master)) = true ∧
      ∀ r', In r' master → anfang r' ≠ NaT →
        ts_lt (anfang r') (anfang r) = true.
Proof.
  intros Hm. rewrite merge_frames in Hm. injection Hm as <-.
  destruct (merger_spec_added_newer (drop k later)
              (merger_spec first (take k later))) as (tail & Heq & Hnew).
  exists tail. split.
  - rewrite merge_frames. rewrite <- (take_drop k later) at 1.
    by rewrite merger_spec_app, Heq.
  - intros r Hr. rewrite Forall_forall in Hnew.
    assert (Hgt := Hnew r (proj2 (list_elem_of_In _ _) Hr)).
    split; [exact Hgt|]. intros r' Hr' Hvalid.
    destruct (anfang r') as [x|] eqn:Hx; [|done].
    destruct (series_max_ge (col_anfang (merger_spec first (take k later))) x)
      as (m & Hmax & Hle).
    { rewrite <- Hx. by apply in_map. }
    rewrite Hmax in Hgt. destruct (anfang r) as [y|]; simpl in *; [|done].
    apply Z.ltb_lt in Hgt. apply Z.ltb_lt. lia.
Qed.

Lemma series_max_filter_gt (s : list Timestamp) (v : Z) :
  ts_max2 (Some v) (series_max (List.filter (λ t, ts_gt t (Some v)) s))
  = ts_max2 (Some v) (series_max s).
Proof.
  unfold series_max. induction s as [|t s IH]; [done|].
  cbn [List.filter foldr]. destruct t as [x|].
  - change (ts_gt (Some x) (Some v)) with (v <? x)%Z.
    destruct (Z.ltb_spec v x).
    + cbn [foldr]. rewrite !(ts_max2_swap (Some v) (Some x)). by rewrite IH.
    + rewrite IH. rewrite (ts_max2_assoc (Some v) (Some x)).
      change (ts_max2 (Some v) (Some x)) with (Some (Z.max v x)).
      by rewrite Z.max_l by lia.
  - change (ts_gt None (Some v)) with false. cbv iota. rewrite IH.
    reflexivity.
Qed.

Lemma col_anfang_select_gt (df : DataFrame) (t : Timestamp) :
  col_anfang (select_gt df t)
  = List.filter (λ t', ts_gt t' t) (col_anfang df).
Proof.
  unfold col_anfang, select_gt. induction df as [|r df IH]; [done|].
  cbn [List.filter map]. destruct (ts_gt (anfang r) t); cbn [map];
    by rewrite IH.
Qed.

Lemma series_max_select_gt (df : DataFrame) (v : Z) :
  ts_max2 (Some v) (series_max (col_anfang (select_gt df (Some v))))
  = ts_max2 (Some v) (series_max (col_anfang df)).
Proof. rewrite col_anfang_select_gt. apply series_max_filter_gt. Qed.

Lemma col_anfang_app (a b : DataFrame) :
  col_anfang (a ++ b) = col_anfang a ++ col_anfang b.
Proof. apply map_app. Qed.

Lemma merger_spec_max (later : list DataFrame) (merged : DataFrame) :
  series_max (col_anfang merged) ≠ NaT →
  series_max (col_anfang (merger_spec merged later))
  = series_max (col_anfang (merged ++ concat later)).
Proof.
  revert merged. induction later as [|df later IH]; intros merged Hm; simpl.
  - by rewrite app_nil_r.
  - fold (select_gt df (series_max (col_anfang merged))).
    destruct (series_max (col_anfang merged)) as [v|] eqn:Hv; [|done].
    assert (Hstep : series_max (col_anfang (merged ++ select_gt df (Some v)))
                    = series_max (col_anfang (merged ++ df))).
    { rewrite !col_anfang_app, !series_max_app, Hv.
      apply series_max_select_gt. }
    rewrite IH.
    + rewrite (col_anfang_app (merged ++ select_gt df (Some v))).
      rewrite series_max_app, Hstep.
      rewrite (app_assoc merged df).
      by rewrite (col_anfang_app (merged ++ df)), series_max_app.
    + rewrite Hstep, col_anfang_app, series_max_app, Hv.
      by destruct (series_max (col_anfang df)).
Qed.

(** X16. Provided the first frame has a timestamp, the latest [anfang] of
    the merged frame is the latest [anfang] of all input rows: the newest
    booking of the whole input is always kept. *)
Theorem merge_keeps_maximum (first : DataFrame) (later : list DataFrame)
    (out : DataFrame) :
  series_max (col_anfang first) ≠ NaT →
  merge_nonoverlapping_dfs (frames (first :: later)) = Ok out →
  series_max (col_anfang out)
  = series_max (col_anfang (first ++ concat later)).
Proof.
  intros Hfirst Hout. rewrite merge_frames in Hout. injection Hout as <-.
  by apply merger_spec_max.
Qed.

(** X17. Later frames that hold only rows of the first frame add nothing:
    merging an export with copies or parts of itself returns it as it is. *)
Theorem merge_known_rows_add_nothing (first : DataFrame)
    (later : list DataFrame) :
  Forall (λ df, incl df first) later →
  merge_nonoverlapping_dfs (frames (first :: later)) = Ok first.
Proof.
  intros H. rewrite merge_frames. f_equal.
  induction H as [|df later Hdf _ IH]; simpl; [done|].
  fold (select_gt df (series_max (col_anfang first))).
  assert (Hnil : select_gt df (series_max (col_anfang first)) = []).
  { apply select_gt_nil_iff. intros r Hr. apply row_below_max. by apply Hdf. }
  by rewrite Hnil, app_nil_r.
Qed.

(** X18. Across a Gapped boundary nothing is dropped: if the earlier frame
    has a timestamp and every row of the later frame has one, the merger
    returns the two frames one after the other. *)
Theorem merge_gapped_keeps_all (A B : DataFrame) :
  classify A B = Gapped →
  series_max (col_anfang A) ≠ NaT →
  Forall (λ r, anfang r ≠ NaT) B →
  merge_nonoverlapping_dfs (frames [A; B]) = Ok (A ++ B).
Proof.
  intros Hc HA HB. rewrite merge_frames. simpl. f_equal. f_equal.
  fold (select_gt B (series_max (col_anfang A))).
  apply select_gt_all_iff. intros r Hr.
  rewrite Forall_forall in HB.
  specialize (HB r (proj2 (list_elem_of_In _ _) Hr)).
  destruct (anfang r) as [x|] eqn:Hx; [|done].
  destruct (series_min_le (col_anfang B) x) as (first & Hfirst & Hle).
  { rewrite <- Hx. by apply in_map. }
  unfold classify in Hc. rewrite Hfirst in Hc.
  destruct (series_max (col_anfang A)) as [last|]; [|done].
  simpl in *. destruct (Z.leb_spec first last); [done|].
  apply Z.ltb_lt. lia.
Qed.

(** X19. For two frames that pass the overlap check, no booking of the
    later frame disappears in the merge: provided the earlier frame has a
    timestamp, the identifier of every timestamped row of the later frame
    occurs in the merged frame. *)
Theorem validated_merge_keeps_ids (A B out : DataFrame) :
  verify_overlapping_bookings [A; B] = Ok tt →
  series_max (col_anfang A) ≠ NaT →
  merge_nonoverlapping_dfs (frames [A; B]) = Ok out →
  ∀ r, In r B → anfang r ≠ NaT →
       In (fahrtneu_id r) (col_fahrtneu_id out).
Proof.
  intros Hv HA Hout r Hr Hvalid.
  rewrite merge_frames in Hout. injection Hout as <-. simpl.
  fold (select_gt B (series_max (col_anfang A))).
  unfold col_fahrtneu_id. rewrite map_app. apply in_or_app.
  destruct (ts_gt (anfang r) (series_max (col_anfang A))) eqn:Hgt.
  { right. apply in_map. by apply select_gt_In. }
  left.
  destruct (anfang r) as [x|] eqn:Hx; [|done].
  destruct (series_min_le (col_anfang B) x) as (first & Hfirst & Hle).
  { rewrite <- Hx. by apply in_map. }
  destruct (series_max (col_anfang A)) as [last|] eqn:Hlast; [|done].
  simpl in Hgt. apply Z.ltb_ge in Hgt.
  rewrite verify_two in Hv.
  rewrite (verify_step_classify [A; B] 0 A B eq_refl eq_refl) in Hv.
  unfold classify in Hv. rewrite Hlast, Hfirst in Hv. simpl in Hv.
  rewrite (proj2 (Z.leb_le first last)) in Hv by lia.
  unfold overlap_assertions in Hv.
  destruct (length _ =? length _); [|discriminate]. simpl in Hv.
  destruct (bool_decide_reflect
              (py_set (col_fahrtneu_id (overlap_current A B))
               = py_set (col_fahrtneu_id (overlap_next A B))))
    as [Hset|]; [|discriminate].
  assert (Hin : fahrtneu_id r ∈ py_set (col_fahrtneu_id (overlap_next A B))).
  { unfold py_set. apply elem_of_list_to_set, list_elem_of_In.
    unfold col_fahrtneu_id. apply in_map.
    unfold overlap_next, select_le. apply filter_In. split; [done|].
    rewrite Hx, Hlast. simpl. by apply Z.leb_le. }
  rewrite <- Hset in Hin. unfold py_set in Hin.
  apply elem_of_list_to_set, list_elem_of_In in Hin.
  unfold col_fahrtneu_id in Hin. apply in_map_iff in Hin as (r' & Hid & Hr').
  unfold overlap_current, select_ge in Hr'. apply filter_In in Hr' as [Hr' _].
  rewrite <- Hid. by apply in_map.
Qed.

(** ** The intended case: an export that re-emits the tail of the last one *)

Lemma series_min_In (s : list Timestamp) (m : Z) :
  series_min s = Some m → In (Some m) s.
Proof.
  unfold series_min. revert m. induction s as [|t s IH]; intros m; [done|].
  simpl. destruct t as [x|]; simpl.
  - destruct (foldr ts_min2 NaT s) as [y|] eqn:Hs.
    + intros [= <-]. destruct (Z.min_spec x y) as [[_ ->] | [_ ->]];
        [by left | right; by apply IH].
    + intros [= <-]. by left.
  - intros H. right. by apply IH.
Qed.

Lemma filter_all {A} (f : A → bool) (l : list A) :
  (∀ x, In x l → f x = true) → List.filter f l = l.
Proof.
  induction l as [|x l IH]; simpl; [done|]. intros H.
  rewrite (H x (or_introl eq_refl)). f_equal. apply IH. intros y Hy.
  apply H. by right.
Qed.

Lemma filter_none {A} (f : A → bool) (l : list A) :
  (∀ x, In x l → f x = false) → List.filter f l = [].
Proof.
  induction l as [|x l IH]; simpl; [done|]. intros H.
  rewrite (H x (or_introl eq_refl)). apply IH. intros y Hy.
  apply H. by right.
Qed.

(** X20. The case the module is written for. Let the later export consist
    of the rows of [A] from some instant [t] on, re-emitted in any order,
    followed by rows [N] that are all newer than the last row of [A]. Then
    the overlap check passes, and the merger returns [A] followed by
    exactly the new rows [N]. *)
Theorem reemitted_tail_merges (A W N : DataFrame) (t : Z) :
  W ≠ [] →
  W ≡ₚ select_ge A (Some t) →
  Forall (λ r, ts_gt (anfang r) (series_max (col_anfang A)) = true) N →
  verify_overlapping_bookings [A; W ++ N] = Ok tt ∧
  merge_nonoverlapping_dfs (frames [A; W ++ N]) = Ok (A ++ N).
Proof.
  intros Hne HW HN. rewrite Forall_forall in HN.
  assert (HWA : ∀ r, In r W → In r A ∧ ts_ge (anfang r) (Some t) = true).
  { intros r Hr.
    assert (Hin : In r (select_ge A (Some t))).
    { apply list_elem_of_In. rewrite <- HW. by apply list_elem_of_In. }
    unfold select_ge in Hin. by apply filter_In in Hin. }
  assert (Hex : ∃ r0, In r0 W) by (destruct W; [done | eexists; by left]).
  destruct Hex as [r0 Hr0].
  destruct (HWA r0 Hr0) as [Hr0A Hr0t].
  destruct (anfang r0) as [x0|] eqn:Hx0; [|done].
  destruct (series_max_ge (col_anfang A) x0) as (last & Hlast & Hx0last).
  { rewrite <- Hx0. by apply in_map. }
  rewrite Hlast in HN.
  assert (HWlast : ∀ r, In r W → ts_le (anfang r) (Some last) = true).
  { intros r Hr. destruct (HWA r Hr) as [HrA Hrt].
    destruct (anfang r) as [x|] eqn:Hx; [|done].
    destruct (series_max_ge (col_anfang A) x) as (m & Hm & Hle).
    { rewrite <- Hx. by apply in_map. }
    rewrite Hlast in Hm. injection Hm as <-. simpl. by apply Z.leb_le. }
  assert (HNlast : ∀ r, In r N → ts_le (anfang r) (Some last) = false).
  { intros r Hr. specialize (HN r (proj2 (list_elem_of_In _ _) Hr)).
    destruct (anfang r) as [y|]; simpl in *; [|done].
    apply Z.ltb_lt in HN. apply Z.leb_gt. lia. }
  destruct (series_min_le (col_anfang (W ++ N)) x0) as (first & Hfirst & Hfx0).
  { rewrite <- Hx0. apply in_map, in_or_app. by left. }
  assert (Htfirst : (t ≤ first)%Z).
  { apply series_min_In in Hfirst.
    apply in_map_iff in Hfirst as (r & Hr & Hin).
    apply in_app_or in Hin as [Hin|Hin].
    - destruct (HWA r Hin) as [_ Hrt]. rewrite Hr in Hrt. simpl in Hrt.
      by apply Z.leb_le in Hrt.
    - specialize (HN r (proj2 (list_elem_of_In _ _) Hin)).
      rewrite Hr in HN. simpl in HN. apply Z.ltb_lt in HN.
      simpl in Hr0t. apply Z.leb_le in Hr0t. lia. }
  assert (HwinA : select_ge A (Some first) = select_ge A (Some t)).
  { unfold select_ge. apply filter_ext_in. intros r Hr.
    destruct (anfang r) as [x|] eqn:Hx; [|done]. simpl.
    destruct (Z.leb_spec t x) as [Htx|Htx].
    - apply Z.leb_le.
      assert (HrW : In r W).
      { apply list_elem_of_In. rewrite HW. apply list_elem_of_In.
        apply filter_In. split; [done|]. rewrite Hx. simpl.
        by apply Z.leb_le. }
      destruct (series_min_le (col_anfang (W ++ N)) x) as (m & Hm & Hle).
      { rewrite <- Hx. apply in_map, in_or_app. by left. }
      rewrite Hfirst in Hm. by injection Hm as <-.
    - apply Z.leb_gt. lia. }
  assert (HwinB : select_le (W ++ N) (Some last) = W).
  { unfold select_le. rewrite List.filter_app.
    rewrite (filter_all _ W) by exact HWlast.
    rewrite (filter_none _ N) by exact HNlast. apply app_nil_r. }
  split.
  - rewrite verify_two.
    rewrite (verify_step_classify [A; (W ++ N : DataFrame)] 0 A (W ++ N)
               eq_refl eq_refl).
    unfold classify. rewrite Hlast, Hfirst. simpl.
    rewrite (proj2 (Z.leb_le first last)) by lia.
    unfold overlap_assertions, overlap_current, overlap_next.
    rewrite Hlast, Hfirst, HwinA, HwinB.
    rewrite <- (Permutation_length HW), Nat.eqb_refl. simpl.
    rewrite bool_decide_eq_true_2; [done|].
    unfold py_set. apply list_to_set_perm_L.
    unfold col_fahrtneu_id. apply Permutation_map. by symmetry.
  - rewrite merge_frames. simpl. f_equal. f_equal. rewrite Hlast.
    rewrite List.filter_app.
    rewrite (filter_none _ W).
    + apply filter_all. intros r Hr.
      exact (HN r (proj2 (list_elem_of_In _ _) Hr)).
    + intros r Hr. apply ts_gt_le_false. by apply HWlast.
Qed.

(** ** More on the entry point *)

Section PipelineMore.

Variable read_csv : string → string → string → outcome RawFrame.
Variable to_datetime : list string → outcome (list Timestamp).

(** X21. With fewer than two files there is no boundary to check. Called
    without any file, the entry point fails with the merger's [IndexError]
    (nothing is read, both checks pass on the empty list, and the merger
    indexes its first element). Called with one file, it returns that
    file's converted frame unchanged and logs nothing; if the file cannot be
    read or converted, that error is the outcome. *)
Theorem pipeline_few_files (f encoding delimiter : string) :
  combine_and_verify_booking_data read_csv to_datetime [] encoding delimiter
  = Logged (Raise (IndexError "list index out of range")) [] ∧
  (∀ raw df,
     read_csv f encoding delimiter = Ok raw →
     convert_columns to_datetime raw = Ok df →
     combine_and_verify_booking_data read_csv to_datetime [f] encoding
       delimiter = Logged (Ok df) []) ∧
  (∀ e,
     read_csv f encoding delimiter = Raise e →
     combine_and_verify_booking_data read_csv to_datetime [f] encoding
       delimiter = Logged (Raise e) []) ∧
  (∀ raw e,
     read_csv f encoding delimiter = Ok raw →
     convert_columns to_datetime raw = Raise e →
     combine_and_verify_booking_data read_csv to_datetime [f] encoding
       delimiter = Logged (Raise e) []).
Proof.
  split; [reflexivity|].
  assert (Hs : sorted [f] = [f]) by reflexivity.
  unfold combine_and_verify_booking_data, load_and_sort_fahrten_data.
  rewrite Hs. repeat split.
  - intros raw df Hr Hc.
    assert (H1 : mapM (λ g, read_csv g encoding delimiter) [f] = Ok [raw])
      by (apply mapM_outcome_Ok; by repeat constructor).
    assert (H2 : mapM (convert_columns to_datetime) [raw] = Ok [df])
      by (apply mapM_outcome_Ok; by repeat constructor).
    rewrite H1. cbn [mbind outcome_bind]. rewrite H2.
    cbn [mbind outcome_bind]. rewrite logged_bind_lift_Ok. reflexivity.
  - intros e Hr.
    assert (H1 : mapM (λ g, read_csv g encoding delimiter) [f] = Raise e).
    { apply mapM_outcome_Raise. exists [], f, []. by repeat split. }
    rewrite H1. reflexivity.
  - intros raw e Hr Hc.
    assert (H1 : mapM (λ g, read_csv g encoding delimiter) [f] = Ok [raw])
      by (apply mapM_outcome_Ok; by repeat constructor).
    assert (H2 : mapM (convert_columns to_datetime) [raw] = Raise e).
    { apply mapM_outcome_Raise. exists [], raw, []. by repeat split. }
    rewrite H1. cbn [mbind outcome_bind]. rewrite H2. reflexivity.
Qed.

End PipelineMore.

(** ** The further properties at the sample files *)

Lemma check_overlaps_with_time_agrees_witness :
  check_overlaps_with_time [frame_c; frame_d] ["c.csv"] 6
  = assert_time_difference_in_bookings [frame_c; frame_d] ["c.csv"] 6.
Proof.
  apply check_overlaps_with_time_agrees. left.
  unfold timedelta_min_hours, timedelta_max_hours. lia.
Defined.

Lemma convert_columns_rows_witness :
  convert_columns to_datetime g_csv = Raise (PyError "KeyError" "'anfang'") ∧
  ∀ c, In c ["anfang"; "ende"; "fahrt_anfang"; "fahrt_ende"] →
       c ∈ raw_header a_csv.
Proof.
  split.
  - apply (convert_columns_rows to_datetime g_csv).
    simpl. rewrite !not_elem_of_cons.
    repeat split; try discriminate. apply not_elem_of_nil.
  - destruct (convert_columns_rows to_datetime a_csv) as (_ & Hok & _).
    by destruct (Hok frame_a eq_refl) as [Hcols _].
Defined.

Lemma loader_frames_follow_sorted_names_witness :
  Forall2 (loaded_from read_csv to_datetime "ISO-8859-1" ";")
    (sorted ["d.csv"; "a.csv"]) [frame_a; frame_d] ∧
  length [frame_a; frame_d] = length ["d.csv"; "a.csv"].
Proof.
  destruct (loader_frames_follow_sorted_names read_csv to_datetime
              ["d.csv"; "a.csv"] "ISO-8859-1" ";") as (_ & _ & Hok & _).
  apply (Hok [frame_a; frame_d] ["d.csv"; "a.csv"]). reflexivity.
Defined.

Lemma loader_order_independent_witness :
  load_and_sort_fahrten_data read_csv to_datetime ["d.csv"; "a.csv"]
    "ISO-8859-1" ";"
  = match load_and_sort_fahrten_data read_csv to_datetime ["a.csv"; "d.csv"]
            "ISO-8859-1" ";" with
    | Ok (dfs, _) => Ok (dfs, ["d.csv"; "a.csv"])
    | Raise e => Raise e
    end.
Proof.
  apply (loader_order_independent read_csv to_datetime ["a.csv"; "d.csv"]
           ["d.csv"; "a.csv"]).
  apply perm_swap.
Defined.

Lemma loader_vs_read_csvs_sorted_witness :
  load_and_sort_fahrten_data read_csv to_datetime ["a.csv"; "d.csv"]
    "ISO-8859-1" ";"
  = read_csvs_sorted read_csv to_datetime ["a.csv"; "d.csv"].
Proof.
  apply (loader_vs_read_csvs_sorted read_csv to_datetime ["a.csv"; "d.csv"]).
  repeat constructor.
Defined.

Lemma loader_read_error_first_witness :
  load_and_sort_fahrten_data read_csv to_datetime ["z.csv"; "a.csv"]
    "ISO-8859-1" ";"
  = Raise (PyError "FileNotFoundError" "z.csv").
Proof.
  apply (loader_read_error_first read_csv to_datetime ["z.csv"; "a.csv"]
           "ISO-8859-1" ";" ["a.csv"] [] "z.csv").
  - reflexivity.
  - constructor; [by exists a_csv | constructor].
  - reflexivity.
Defined.

Lemma no_boundary_no_check_witness :
  verify_overlapping_bookings [frame_a] = Ok tt ∧
  ∀ files th,
    assert_time_difference_in_bookings [frame_a] files th = Logged (Ok tt) [].
Proof. apply (no_boundary_no_check [frame_a]). simpl. lia. Defined.

Lemma empty_frame_fails_gap_check_witness :
  verify_overlapping_bookings (take 2 [frame_a; []; frame_d]) = Ok tt ∧
  assert_time_difference_in_bookings [frame_a; []; frame_d]
    ["a.csv"; "empty.csv"; "d.csv"] 1000000
  = Logged (Raise (GapTooLarge 1000000 "a.csv" "empty.csv")) [].
Proof.
  apply (empty_frame_fails_gap_check [frame_a; []; frame_d]
           ["a.csv"; "empty.csv"; "d.csv"] 1000000 0 frame_a []
           "a.csv" "empty.csv"); try reflexivity.
  - by right.
  - unfold timedelta_min_hours, timedelta_max_hours. lia.
Defined.

Lemma gap_check_needs_file_names_witness :
  assert_time_difference_in_bookings [frame_c; frame_d] ["c.csv"] 6
  = Logged (Raise (IndexError "list index out of range")) [].
Proof.
  apply (gap_check_needs_file_names [frame_c; frame_d] ["c.csv"] 6 0
           frame_c frame_d eq_refl eq_refl eq_refl).
  - intros first last H1 H2. vm_compute in H1, H2.
    injection H1 as <-. injection H2 as <-. vm_compute. discriminate.
  - simpl. lia.
  - reflexivity.
Defined.

Lemma gap_check_threshold_monotone_witness :
  assert_time_difference_in_bookings [frame_c; frame_d] ["c.csv"; "d.csv"] 6
  = assert_time_difference_in_bookings [frame_c; frame_d] ["c.csv"; "d.csv"] 5.
Proof.
  apply gap_check_threshold_monotone;
    [lia | unfold timedelta_max_hours; lia | vm_compute; reflexivity].
Defined.

Lemma gap_check_out_of_range_witness :
  assert_time_difference_in_bookings [frame_early; frame_late] [] 6
    = Logged (Raise out_of_bounds_datetime) [] ∧
  assert_time_difference_in_bookings [frame_c; frame_d] ["c.csv"; "d.csv"]
    24000000000
    = Logged (Raise (timedelta_overflow 24000000000)) [].
Proof.
  split.
  - destruct (gap_check_out_of_range [frame_early; frame_late] [] 6 0
                frame_early frame_late (-5000000000000000000)
                5000000000000000000
                eq_refl eq_refl eq_refl eq_refl eq_refl eq_refl) as [H _].
    apply H. reflexivity.
  - destruct (gap_check_out_of_range [frame_c; frame_d] ["c.csv"; "d.csv"]
                24000000000 0 frame_c frame_d (12 * hour) (17 * hour)
                eq_refl eq_refl eq_refl eq_refl eq_refl eq_refl) as [_ H].
    apply H.
    + vm_compute. discriminate.
    + simpl. lia.
    + unfold timedelta_max_hours. lia.
Defined.

Lemma gap_check_one_warning_per_gap_witness :
  length (records (assert_time_difference_in_bookings
                     [frame_a; frame_c; frame_d]
                     ["a.csv"; "c.csv"; "d.csv"] 6))
  = 1.
Proof.
  rewrite gap_check_one_warning_per_gap; vm_compute; reflexivity.
Defined.

Lemma merge_empty_first_witness :
  merge_nonoverlapping_dfs (frames [[]; frame_a; frame_d]) = Ok [].
Proof. by apply (merge_empty_first [] [frame_a; frame_d]). Defined.

Lemma merge_appended_newer_witness :
  ∃ tail,
    merge_nonoverlapping_dfs (frames [frame_a; frame_c; frame_d])
      = Ok (frame_a ++ tail) ∧
    ∀ r, In r tail →
      ts_gt (anfang r) (series_max (col_anfang frame_a)) = true ∧
      ∀ r', In r' frame_a → anfang r' ≠ NaT →
        ts_lt (anfang r') (anfang r) = true.
Proof.
  apply (merge_appended_newer frame_a [frame_c; frame_d] 0 frame_a).
  reflexivity.
Defined.

Lemma merge_keeps_maximum_witness :
  series_max (col_anfang (frame_a ++ [row 12 4]))
  = series_max (col_anfang (frame_a ++ concat [frame_c])).
Proof.
  apply (merge_keeps_maximum frame_a [frame_c]); [discriminate | reflexivity].
Defined.

Lemma merge_known_rows_add_nothing_witness :
  merge_nonoverlapping_dfs (frames [frame_a; frame_a; [row 9 2]])
  = Ok frame_a.
Proof.
  apply (merge_known_rows_add_nothing frame_a [frame_a; [row 9 2]]).
  constructor; [intros r Hr; exact Hr|].
  constructor; [|constructor].
  intros r [<-|[]]. simpl. tauto.
Defined.

Lemma merge_gapped_keeps_all_witness :
  merge_nonoverlapping_dfs (frames [frame_c; frame_d])
  = Ok (frame_c ++ frame_d).
Proof.
  apply merge_gapped_keeps_all; [reflexivity | discriminate |].
  repeat constructor; discriminate.
Defined.

Lemma validated_merge_keeps_ids_witness :
  In (row 9 2) frame_c ∧
  In (fahrtneu_id (row 9 2)) (col_fahrtneu_id (frame_a ++ [row 12 4])).
Proof.
  split; [simpl; tauto|].
  apply (validated_merge_keeps_ids frame_a frame_c (frame_a ++ [row 12 4])).
  - vm_compute. reflexivity.
  - discriminate.
  - reflexivity.
  - simpl. tauto.
  - discriminate.
Defined.

Lemma reemitted_tail_merges_witness :
  verify_overlapping_bookings [frame_a; [row 10 3; row 9 2] ++ [row 12 4]]
    = Ok tt ∧
  merge_nonoverlapping_dfs
    (frames [frame_a; [row 10 3; row 9 2] ++ [row 12 4]])
    = Ok (frame_a ++ [row 12 4]).
Proof.
  apply (reemitted_tail_merges frame_a [row 10 3; row 9 2] [row 12 4]
           (9 * hour)).
  - discriminate.
  - apply perm_swap.
  - repeat constructor.
Defined.

Lemma pipeline_few_files_witness :
  combine_and_verify_booking_data read_csv to_datetime ["a.csv"]
    "ISO-8859-1" ";"
  = Logged (Ok frame_a) [] ∧
  combine_and_verify_booking_data read_csv to_datetime ["z.csv"]
    "ISO-8859-1" ";"
  = Logged (Raise (PyError "FileNotFoundError" "z.csv")) [].
Proof.
  split.
  - destruct (pipeline_few_files read_csv to_datetime "a.csv" "ISO-8859-1"
                ";") as (_ & Hok & _).
    by apply (Hok a_csv frame_a).
  - destruct (pipeline_few_files read_csv to_datetime "z.csv" "ISO-8859-1"
                ";") as (_ & _ & Hread & _).
    by apply Hread.
Defined.
